(** * VGrisu: grisudet-readable output of CORSIKA results

    Shallow embedding of [src/VGrisu.cpp].

    Conventions of the embedding.
    - C++ [float] and [double] values are real numbers ([R]); rounding is
      not modelled here.  Module [Binary32] at the end evaluates [redang]
      bit-exactly on IEEE-754 values.
    - C++ [int] values are integers ([Z]); [(int) v] truncates toward zero.
    - Every member function is a computation over the object ([this_]) and
      the process environment ([env]: [cout], the file system, the linked
      atmosphere routines), so that what a function reads and writes is a
      theorem and not a choice of the embedding.
    - A stream records the sequence of insertions made into it, each with the
      format state it was made under; [ios.render] turns that record into
      text for a given floating-point formatter. *)

From Stdlib Require Import Reals Lra Lia ZArith Ascii String.
From Stdlib Require Floats.SpecFloat.
From stdpp Require Import base option list gmap strings pretty.

Local Open Scope R_scope.

(** ** The C++ language and <cmath> *)

Module cxx.

(** [(int) v] and [int( v )]: conversion of a floating value to [int]
    discards the fractional part.  This is the value of the conversion
    where C++ defines it, which is where the result is an [int]; the
    bit-exact [Binary32.to_int] below has no value elsewhere. *)
Definition to_int (v : R) : Z :=
  if Rle_dec 0 v then Int_part v else (- Int_part (- v))%Z.

Definition M_PI : R := PI.

Definition fabs (v : R) : R := Rabs v.

(** [atan2( y, x )] of <cmath>, with values in [-PI, PI]. *)
Definition atan2 (y x : R) : R :=
  if Rlt_dec 0 x then atan (y / x)
  else if Rlt_dec x 0 then
    (if Rle_dec 0 y then atan (y / x) + PI else atan (y / x) - PI)
  else if Rlt_dec 0 y then PI / 2
  else if Rlt_dec y 0 then - (PI / 2)
  else 0.



End cxx.

(** ** The part of <iostream> the class uses *)

Module ios.

(** The format flags the class sets or depends on. *)
Record fmtflags := Fmtflags {
  fixed : bool;
  right : bool;
  showpos : bool
}.

Definition no_flags : fmtflags := Fmtflags false false false.
Definition ios_fixed : fmtflags := Fmtflags true false false.
Definition ios_right : fmtflags := Fmtflags false true false.
Definition ios_showpos : fmtflags := Fmtflags false false true.

(** [a | b] on flag masks. *)
Definition flags_or (a b : fmtflags) : fmtflags :=
  Fmtflags (fixed a || fixed b) (right a || right b) (showpos a || showpos b).

(** [a & ~b] on flag masks. *)
Definition flags_clear (a b : fmtflags) : fmtflags :=
  Fmtflags (fixed a && negb (fixed b)) (right a && negb (right b))
           (showpos a && negb (showpos b)).

Inductive value :=
| text (s : string)
| integer (z : Z)
| floating (v : R).

(** One formatted insertion, with the flags, precision and width in force
    when it was made, or the newline written by [endl]. *)
Inductive token :=
| Put (fl : fmtflags) (prec : nat) (w : nat) (v : value)
| Newline.

Record ostream := Ostream {
  is_open : bool;
  flags : fmtflags;
  precision : nat;
  width : nat;
  sent : list token
}.

(** A default-constructed [ofstream]: not associated with a file. *)
Definition closed_stream : ostream := Ostream false no_flags 6 0 [].

(** [os.setf( mask )] *)
Definition setf (mask : fmtflags) (os : ostream) : ostream :=
  Ostream (is_open os) (flags_or (flags os) mask) (precision os) (width os) (sent os).

(** [os.unsetf( mask )] *)
Definition unsetf (mask : fmtflags) (os : ostream) : ostream :=
  Ostream (is_open os) (flags_clear (flags os) mask) (precision os) (width os) (sent os).

(** [os.precision( n )] and [os << setprecision( n )] *)
Definition set_precision (n : nat) (os : ostream) : ostream :=
  Ostream (is_open os) (flags os) n (width os) (sent os).

(** [os.width( n )] *)
Definition set_width (n : nat) (os : ostream) : ostream :=
  Ostream (is_open os) (flags os) (precision os) n (sent os).

(** Formatted output of one value: nothing happens on a stream without a
    file; otherwise the value is written under the current format state
    and the width is reset. *)
Definition insert (v : value) (os : ostream) : ostream :=
  if is_open os
  then Ostream true (flags os) (precision os) 0
               (sent os ++ [Put (flags os) (precision os) (width os) v])
  else os.

(** [os << endl]: an unformatted newline. *)
Definition put_endl (os : ostream) : ostream :=
  if is_open os
  then Ostream true (flags os) (precision os) (width os) (sent os ++ [Newline])
  else os.

Inductive manip :=
| endl
| setprecision (n : nat).

Inductive item :=
| Val (v : value)
| Man (m : manip).

Definition shl (os : ostream) (i : item) : ostream :=
  match i with
  | Val v => insert v os
  | Man endl => put_endl os
  | Man (setprecision n) => set_precision n os
  end.

(** *** Text of a stream *)

Definition nl : string := String "010"%char "".

Definition pad (w : nat) (s : string) : string :=
  String.concat "" (replicate (w - String.length s) " "%string) +:+ s.

(** The characters of one value; [num_put] is the library's formatting of
    a floating value under given flags and precision. *)
Definition render_value (num_put : fmtflags -> nat -> R -> string)
    (fl : fmtflags) (prec : nat) (v : value) : string :=
  match v with
  | text s => s
  | integer z => (if showpos fl && (0 <=? z)%Z then "+" else "") +:+ pretty z
  | floating r => num_put fl prec r
  end.

Definition render_token (num_put : fmtflags -> nat -> R -> string)
    (t : token) : string :=
  match t with
  | Put fl prec w v => pad w (render_value num_put fl prec v)
  | Newline => nl
  end.

Fixpoint render (num_put : fmtflags -> nat -> R -> string)
    (l : list token) : string :=
  match l with
  | [] => ""
  | t :: l' => render_token num_put t +:+ render num_put l'
  end.

End ios.

Import ios.

Coercion Val : value >-> item.
Coercion Man : manip >-> item.
Notation "os << i" := (shl os i) (at level 50, left associativity).

Definition tab (s : string) : string := String "009"%char s.
Definition tab3 (s : string) : string := tab (tab (tab s)).

(** ** Data received from the reader *)

(** The run header as CORSIKA delivers it: a block of floats read by index. *)
Definition runheader_buffer := nat -> R.

(** The collaborator printing the CORSIKA run header; a null pointer is
    [None]. *)
Record VCORSIKARunheader := {
  printHeader : ostream -> ostream
}.

(** The fields of [telescope_array::shower_sim] read by [writeEvent]. *)
Record shower_sim_type := {
  energy : R;
  azimuth : R;
  altitude : R;
  xcore : R;
  ycore : R;
  firstint : R;
  shower_id : Z
}.

Record telescope_array := {
  shower_sim : shower_sim_type
}.

(** The fields of [bunch] read by [writePhotons]. *)
Record bunch := {
  b_x : R;
  b_y : R;
  b_cx : R;
  b_cy : R;
  b_ctime : R;
  b_zem : R;
  b_lambda : R
}.

(** ** The linked atmosphere routines *)

(** [atmset_( int*, double* )] may write through both pointers and changes
    the state of the atmosphere library; [thickx_( double* )] reads it. *)
Class IACT := {
  atm_state : Type;
  atmset_ : Z -> R -> atm_state -> Z * R * atm_state;
  thickx_ : R -> atm_state -> R
}.

(** [std::map<int,int>::operator[]]: the value at [k], where a missing key
    is first inserted with value 0. *)
Definition map_subscript (k : Z) (m : gmap Z Z) : Z * gmap Z Z :=
  match m !! k with
  | Some v => (v, m)
  | None => (0%Z, <[k:=0%Z]> m)
  end.

(** ** The class *)

Record VGrisu := MkVGrisu {
  degrad : R;
  fVersion : string;
  bSTDOUT : bool;
  primID : Z;
  xoff : R;
  yoff : R;
  qeff : R;
  observation_height : R;
  atm_id : Z;
  particles : gmap Z Z;
  of_file : ostream
}.

Definition set_degrad (v : R) (g : VGrisu) : VGrisu :=
  MkVGrisu v (fVersion g) (bSTDOUT g) (primID g) (xoff g) (yoff g) (qeff g)
           (observation_height g) (atm_id g) (particles g) (of_file g).
Definition set_fVersion (v : string) (g : VGrisu) : VGrisu :=
  MkVGrisu (degrad g) v (bSTDOUT g) (primID g) (xoff g) (yoff g) (qeff g)
           (observation_height g) (atm_id g) (particles g) (of_file g).
Definition set_bSTDOUT (v : bool) (g : VGrisu) : VGrisu :=
  MkVGrisu (degrad g) (fVersion g) v (primID g) (xoff g) (yoff g) (qeff g)
           (observation_height g) (atm_id g) (particles g) (of_file g).
Definition set_primID (v : Z) (g : VGrisu) : VGrisu :=
  MkVGrisu (degrad g) (fVersion g) (bSTDOUT g) v (xoff g) (yoff g) (qeff g)
           (observation_height g) (atm_id g) (particles g) (of_file g).
Definition set_xoff (v : R) (g : VGrisu) : VGrisu :=
  MkVGrisu (degrad g) (fVersion g) (bSTDOUT g) (primID g) v (yoff g) (qeff g)
           (observation_height g) (atm_id g) (particles g) (of_file g).
Definition set_yoff (v : R) (g : VGrisu) : VGrisu :=
  MkVGrisu (degrad g) (fVersion g) (bSTDOUT g) (primID g) (xoff g) v (qeff g)
           (observation_height g) (atm_id g) (particles g) (of_file g).
Definition set_qeff (v : R) (g : VGrisu) : VGrisu :=
  MkVGrisu (degrad g) (fVersion g) (bSTDOUT g) (primID g) (xoff g) (yoff g) v
           (observation_height g) (atm_id g) (particles g) (of_file g).
Definition set_observation_height (v : R) (g : VGrisu) : VGrisu :=
  MkVGrisu (degrad g) (fVersion g) (bSTDOUT g) (primID g) (xoff g) (yoff g) (qeff g)
           v (atm_id g) (particles g) (of_file g).
Definition set_atm_id (v : Z) (g : VGrisu) : VGrisu :=
  MkVGrisu (degrad g) (fVersion g) (bSTDOUT g) (primID g) (xoff g) (yoff g) (qeff g)
           (observation_height g) v (particles g) (of_file g).
Definition set_particles (v : gmap Z Z) (g : VGrisu) : VGrisu :=
  MkVGrisu (degrad g) (fVersion g) (bSTDOUT g) (primID g) (xoff g) (yoff g) (qeff g)
           (observation_height g) (atm_id g) v (of_file g).
Definition set_of_file (v : ostream) (g : VGrisu) : VGrisu :=
  MkVGrisu (degrad g) (fVersion g) (bSTDOUT g) (primID g) (xoff g) (yoff g) (qeff g)
           (observation_height g) (atm_id g) (particles g) v.

Section VGrisu.

Context `{Atm : IACT}.

(** The process environment: the console stream, which paths the file
    system lets the process create, the atmosphere library's state and
    the calls made to [atmset_]. *)
Record World := MkWorld {
  cout : ostream;
  can_open : string -> bool;
  atm : atm_state;
  atmset_calls : list (Z * R)
}.

Definition set_cout (v : ostream) (w : World) : World :=
  MkWorld v (can_open w) (atm w) (atmset_calls w).

Record State := MkState {
  this_ : VGrisu;
  env : World
}.

(** *** Computations: state, and [exit] *)

Inductive outcome (A : Type) :=
| Done (a : A) (s : State)
| Exited (status : Z) (s : State).
Global Arguments Done {A} a s.
Global Arguments Exited {A} status s.

Definition M (A : Type) : Type := State -> outcome A.

Global Instance M_ret : MRet M := fun A a s => Done a s.
Global Instance M_bind : MBind M := fun A B f m s =>
  match m s with
  | Done a s' => f a s'
  | Exited status s' => Exited status s'
  end.

Definition get_this : M VGrisu := fun s => Done (this_ s) s.
Definition get_env : M World := fun s => Done (env s) s.
Definition upd_this (f : VGrisu -> VGrisu) : M unit :=
  fun s => Done tt (MkState (f (this_ s)) (env s)).
Definition upd_env (f : World -> World) : M unit :=
  fun s => Done tt (MkState (this_ s) (f (env s))).
Definition exit_ {A : Type} (status : Z) : M A := fun s => Exited status s.

(** Statements on [of_file] and on [cout]. *)
Definition on_of_file (f : ostream -> ostream) : M unit :=
  upd_this (fun g => set_of_file (f (of_file g)) g).
Definition on_cout (f : ostream -> ostream) : M unit :=
  upd_env (fun w => set_cout (f (cout w)) w).

(** [particles[ k ]] *)
Definition particles_subscript (k : Z) : M Z :=
  g ← get_this;
  let '(v, m) := map_subscript k (particles g) in
  upd_this (set_particles m);;
  mret v.

(** [atmset_( &atm_id, &observation_height )] *)
Definition call_atmset_ : M unit :=
  fun s =>
    let g := this_ s in
    let w := env s in
    let '(id', h', a') := atmset_ (atm_id g) (observation_height g) (atm w) in
    Done tt (MkState (set_observation_height h' (set_atm_id id' g))
                     (MkWorld (cout w) (can_open w) a'
                              (atmset_calls w ++ [(atm_id g, observation_height g)]))).

(** [of_file.open( ofile.c_str() )] followed by the test [!of_file]:
    opening fails when the stream already has a file or the file cannot be
    created, and the stream then tests false; a created file starts
    empty.  The result is whether the stream tests true. *)
Definition of_file_open (ofile : string) : M bool :=
  g ← get_this;
  w ← get_env;
  if negb (is_open (of_file g)) && can_open w ofile
  then
    on_of_file (fun os => Ostream true (flags os) (precision os) (width os) []);;
    mret true
  else mret false.

(** *** Member functions *)

(** [float VGrisu::redang( float iangle )] *)
Definition redang (iangle : R) : M R :=
  let iangle :=
    if Rge_dec iangle 0
    then iangle - IZR (cxx.to_int (iangle / (2 * cxx.M_PI))) * 2 * cxx.M_PI
    else 2 * cxx.M_PI + iangle
         + IZR (cxx.to_int (iangle / (2 * cxx.M_PI))) * 2 * cxx.M_PI in
  mret iangle.

(** [void VGrisu::transformCoord( float& az, float& x, float& y )]; the
    result is the values left in [az], [x] and [y]. *)
Definition transformCoord (az x y : R) : M (R * R * R) :=
  r ← redang az;
  az ← redang (1.5 * cxx.M_PI - r);
  let i_y := y in
  let y := -1 * x in
  let x := -1 * i_y in
  mret (az, x, y).

(** [void VGrisu::makeParticleMap()] *)
Definition makeParticleMap : M unit :=
  upd_this (set_particles ∅);;
  upd_this (fun g => set_particles (<[1%Z:=1%Z]> (particles g)) g);;
  upd_this (fun g => set_particles (<[2%Z:=2%Z]> (particles g)) g);;
  upd_this (fun g => set_particles (<[3%Z:=3%Z]> (particles g)) g);;
  upd_this (fun g => set_particles (<[5%Z:=4%Z]> (particles g)) g);;
  upd_this (fun g => set_particles (<[6%Z:=5%Z]> (particles g)) g);;
  upd_this (fun g => set_particles (<[7%Z:=6%Z]> (particles g)) g);;
  upd_this (fun g => set_particles (<[8%Z:=7%Z]> (particles g)) g);;
  upd_this (fun g => set_particles (<[9%Z:=8%Z]> (particles g)) g);;
  upd_this (fun g => set_particles (<[11%Z:=9%Z]> (particles g)) g);;
  upd_this (fun g => set_particles (<[12%Z:=10%Z]> (particles g)) g);;
  upd_this (fun g => set_particles (<[10%Z:=11%Z]> (particles g)) g);;
  upd_this (fun g => set_particles (<[16%Z:=12%Z]> (particles g)) g);;
  upd_this (fun g => set_particles (<[14%Z:=13%Z]> (particles g)) g);;
  upd_this (fun g => set_particles (<[13%Z:=14%Z]> (particles g)) g).

(** The body of [VGrisu::VGrisu( string iVersion, int id )]. *)
Definition constructor_body (iVersion : string) (id : Z) : M unit :=
  upd_this (set_degrad (45 / atan 1));;
  upd_this (set_fVersion iVersion);;
  upd_this (set_bSTDOUT false);;
  upd_this (set_primID 0%Z);;
  upd_this (set_xoff 0);;
  upd_this (set_yoff 0);;
  upd_this (set_qeff 1);;
  upd_this (set_observation_height 100);;
  upd_this (set_atm_id id);;
  (if (0 <=? id)%Z then call_atmset_ else mret tt);;
  makeParticleMap.

(** The object before the constructor body runs: class-type members are
    default-constructed, the scalar members hold whatever [raw] holds. *)
Definition before_constructor (raw : VGrisu) : VGrisu :=
  set_of_file closed_stream (set_particles ∅ (set_fVersion "" raw)).

Definition VGrisu_new (raw : VGrisu) (iVersion : string) (id : Z) (w : World)
    : outcome unit :=
  constructor_body iVersion id (MkState (before_constructor raw) w).

(** [void VGrisu::setOutputfile( string ofile )] *)
Definition setOutputfile (ofile : string) : M unit :=
  if negb (String.eqb ofile "stdout")
  then
    ok ← of_file_open ofile;
    (if negb ok
     then
       on_cout (fun os =>
         os << text "VGrisu::setOutputfile: error opening outputfile: "
            << text ofile << endl);;
       exit_ (-1)
     else mret tt);;
    on_of_file (setf (flags_or ios_fixed ios_right));;
    on_of_file (set_precision 4);;
    on_of_file (set_width 15)
  else
    upd_this (set_bSTDOUT true);;
    on_cout (setf (flags_or ios_fixed ios_right));;
    on_cout (set_precision 4);;
    on_cout (set_width 15).

(** [void VGrisu::writeRunHeader( float* buf1, VCORSIKARunheader* f )] *)
Definition writeRunHeader (buf1 : runheader_buffer) (f : option VCORSIKARunheader)
    : M unit :=
  g ← get_this;
  if negb (bSTDOUT g)
  then
    on_of_file (fun os => os << text "* HEADF  <-- Start of header flag" << endl);;
    on_of_file (fun os => os << endl);;
    on_of_file (fun os => os << text "photon list created with " << text (fVersion g) << endl);;
    on_of_file (fun os => os << endl);;
    on_of_file (fun os => os << text "       Photons generated by CORSIKA  (date: "
                       << integer (cxx.to_int (buf1 44%nat)) << text ")" << endl);;
    on_of_file (fun os => os << endl);;
    on_of_file (fun os => os << text (tab " CORSIKA run number: ")
                       << integer (cxx.to_int (buf1 43%nat)) << endl);;
    on_of_file (fun os => os << text (tab " CORSIKA version: ") << floating (buf1 45%nat) << endl);;
    on_of_file (fun os => os << endl << endl);;
    on_of_file (fun os => os << text " TITLE OF RUN: " << endl);;
    on_of_file (fun os => os << text (tab3 " Primary energy<min.,max.> TeV = "));;
    on_of_file (fun os => os << floating (buf1 58%nat / 1e3) << text (tab "")
                       << floating (buf1 59%nat / 1e3) << endl);;
    on_of_file (fun os => os << text (tab3 " Slope of energy spectrum: ")
                       << floating (buf1 57%nat) << endl);;
    on_of_file (fun os => os << text (tab3 " Type code for primary particle (CORSIKA ID) ")
                       << integer (cxx.to_int (buf1 2%nat)) << endl);;
    on_of_file (fun os => os << text "PTYPE: " << integer (cxx.to_int (buf1 2%nat)) << endl);;
    (match particles g !! cxx.to_int (buf1 2%nat) with
     | Some _ =>
         v ← particles_subscript (cxx.to_int (buf1 2%nat));
         on_of_file (fun os => os << text (tab3 " Type code for primary particle (kascade ID) ")
                                  << integer v << endl)
     | None =>
         on_of_file (fun os => os << text (tab3 (" Type code for primary particle (kascade ID) "
                                                 +:+ tab " unknown particle (for kascade)"))
                                  << endl)
     end);;
    on_of_file (fun os => os << text (tab3 " Primary zenith angle  (CORSIKA coord.): ")
                       << floating (buf1 10%nat * degrad g) << endl);;
    on_of_file (fun os => os << text (tab3 " Primary azimuth angle (CORSIKA coord.): ")
                       << floating (buf1 11%nat * degrad g) << endl);;
    let x := 0 in
    let az := buf1 11%nat in
    '(az, _, _) ← transformCoord az x x;
    on_of_file (fun os => os << text (tab3 " Primary zenith angle  (kascade coord.): ")
                       << floating (buf1 10%nat * degrad g) << endl);;
    on_of_file (fun os => os << text (tab3 " Primary azimuth angle (kascade coord.): ")
                       << floating (az * degrad g) << endl);;
    on_of_file (fun os => os << text (tab3 " Magnetic field (x/z): ") << floating (buf1 70%nat)
                       << text (tab "") << floating (buf1 71%nat) << endl);;
    on_of_file (fun os => os << text (tab3 " Observation height [m]: ")
                       << floating (buf1 47%nat * 0.01) << endl);;
    on_of_file (fun os => os << text (tab3 " Energy cuts (hadr./muon/el./phot.) [GeV]: "));;
    on_of_file (fun os => os << floating (buf1 60%nat) << text (tab "") << floating (buf1 61%nat)
                       << text (tab "") << floating (buf1 62%nat) << text (tab "")
                       << floating (buf1 63%nat) << endl);;
    on_of_file (fun os => os << text "CORSIKA RUN HEADER (START)" << endl);;
    (match f with
     | Some f => on_of_file (printHeader f)
     | None => mret tt
     end);;
    on_of_file (fun os => os << text "CORSIKA RUN HEADER (END)" << endl);;
    on_of_file (fun os => os << endl);;
    on_of_file (fun os => os << text "* DATAF  <-- end of header flag" << endl);;
    on_of_file (fun os => os << text "R " << floating (qeff g) << endl);;
    on_of_file (fun os => os << text "H " << floating (observation_height g) << endl)
  else
    on_cout (fun os => os << text "* HEADF  <-- Start of header flag" << endl);;
    on_cout (fun os => os << endl);;
    on_cout (fun os => os << text "photon list created with " << text (fVersion g) << endl);;
    on_cout (fun os => os << endl);;
    on_cout (fun os => os << text "       Photons generated by CORSIKA  (date: "
                       << integer (cxx.to_int (buf1 44%nat)) << text " C)" << endl);;
    on_cout (fun os => os << endl);;
    on_cout (fun os => os << text (tab " CORSIKA run number: ")
                       << integer (cxx.to_int (buf1 43%nat)) << endl);;
    on_cout (fun os => os << text (tab " CORSIKA version: ") << floating (buf1 45%nat) << endl);;
    on_cout (fun os => os << endl << endl);;
    on_cout (fun os => os << text " TITLE OF RUN: " << endl);;
    on_cout (fun os => os << text (tab3 " Primary energy<min.,max.> TeV = "));;
    on_cout (fun os => os << floating (buf1 58%nat / 1e3) << text (tab "")
                       << floating (buf1 59%nat / 1e3) << endl);;
    on_cout (fun os => os << text (tab3 " Slope of energy spectrum: ")
                       << floating (buf1 57%nat) << endl);;
    on_cout (fun os => os << text (tab3 " Type code for primary particle (CORSIKA ID) ")
                       << integer (cxx.to_int (buf1 2%nat)) << endl);;
    (match particles g !! cxx.to_int (buf1 2%nat) with
     | Some _ =>
         v ← particles_subscript (cxx.to_int (buf1 2%nat));
         on_cout (fun os => os << text (tab3 " Type code for primary particle (kascade ID) ")
                                  << integer v << endl)
     | None =>
         on_cout (fun os => os << text (tab3 (" Type code for primary particle (kascade ID) "
                                                 +:+ tab " unknown particle (for kascade)"))
                                  << endl)
     end);;
    on_cout (fun os => os << text "PTYPE: " << integer (cxx.to_int (buf1 2%nat)) << endl);;
    on_cout (fun os => os << text (tab3 " Primary zenith angle  (CORSIKA coord.): ")
                       << floating (buf1 10%nat * degrad g) << endl);;
    on_cout (fun os => os << text (tab3 " Primary azimuth angle (CORSIKA coord.): ")
                       << floating (buf1 11%nat * degrad g) << endl);;
    let x := 0 in
    let az := buf1 11%nat in
    '(az, _, _) ← transformCoord az x x;
    on_cout (fun os => os << text (tab3 " Primary zenith angle  (kascade coord.): ")
                       << floating (buf1 10%nat * degrad g) << endl);;
    on_cout (fun os => os << text (tab3 " Primary azimuth angle (kascade coord.): ")
                       << floating (az * degrad g) << endl);;
    on_cout (fun os => os << text (tab3 " Magnetic field (x/z): ") << floating (buf1 70%nat)
                       << text (tab "") << floating (buf1 71%nat) << endl);;
    on_cout (fun os => os << text (tab3 " Observation height [m]: ")
                       << floating (buf1 47%nat * 0.01) << endl);;
    on_cout (fun os => os << text (tab3 " Energy cuts (hadr./muon/el./phot.) [GeV]: "));;
    on_cout (fun os => os << floating (buf1 60%nat) << text (tab "") << floating (buf1 61%nat)
                       << text (tab "") << floating (buf1 62%nat) << text (tab "")
                       << floating (buf1 63%nat) << endl);;
    on_cout (fun os => os << endl);;
    on_cout (fun os => os << text "CORSIKA RUN HEADER (START)" << endl);;
    (match f with
     | Some f => on_cout (printHeader f)
     | None => mret tt
     end);;
    on_cout (fun os => os << text "CORSIKA RUN HEADER (END)" << endl);;
    on_cout (fun os => os << endl);;
    on_cout (fun os => os << text "* DATAF  <-- end of header flag" << endl);;
    on_cout (fun os => os << text "R " << floating (qeff g) << endl);;
    on_cout (fun os => os << text "H " << floating (observation_height g) << endl).

(** [void VGrisu::writeEvent( telescope_array array, bool printMoreInfo )] *)
Definition writeEvent (array : telescope_array) (printMoreInfo : bool) : M unit :=
  g ← get_this;
  let phi := azimuth (shower_sim array) / degrad g in
  let ze := (90 - altitude (shower_sim array)) / degrad g in
  let x := xcore (shower_sim array) in
  let y := ycore (shower_sim array) in
  upd_this (set_xoff x);;
  upd_this (set_yoff y);;
  '(phi, x, y) ← transformCoord phi x y;
  let dcos := sin ze * cos phi in
  let dcos := if Rlt_dec (cxx.fabs dcos) 1e-8 then 0 else dcos in
  let dsin := sin ze * sin phi in
  let dsin := if Rlt_dec (cxx.fabs dsin) 1e-8 then 0 else dsin in
  let ih := 100 * firstint (shower_sim array) in
  let thick := -1 in
  w ← get_env;
  let thick := if printMoreInfo then thickx_ ih (atm w) / cos ze else thick in
  (if negb (bSTDOUT g)
   then
    on_of_file (fun os => os << text "S");;
    on_of_file (fun os => os << text " " << setprecision 7 << floating (energy (shower_sim array)));;
    on_of_file (fun os => os << text " " << setprecision 7 << floating x);;
    on_of_file (fun os => os << text " " << setprecision 7 << floating y);;
    on_of_file (fun os => os << text " " << setprecision 7 << floating dcos);;
    on_of_file (fun os => os << text " " << setprecision 7 << floating dsin);;
    on_of_file (fun os => os << text " " << setprecision 7 << floating (firstint (shower_sim array)));;
    on_of_file (fun os => os << text " " << integer (-1));;
    on_of_file (fun os => os << text " " << integer (-1));;
    on_of_file (fun os => os << text " " << integer (-1));;
    on_of_file (fun os => os << endl)
   else
    on_cout (fun os => os << text "S");;
    on_cout (fun os => os << text " " << setprecision 7 << floating (energy (shower_sim array)));;
    on_cout (fun os => os << text " " << setprecision 7 << floating x);;
    on_cout (fun os => os << text " " << setprecision 7 << floating y);;
    on_cout (fun os => os << text " " << setprecision 7 << floating dcos);;
    on_cout (fun os => os << text " " << setprecision 7 << floating dsin);;
    on_cout (fun os => os << text " " << setprecision 7 << floating (firstint (shower_sim array)));;
    on_cout (fun os => os << text " " << integer (-1));;
    on_cout (fun os => os << text " " << integer (-1));;
    on_cout (fun os => os << text " " << integer (-1));;
    on_cout (fun os => os << endl));;
  if printMoreInfo
  then
    if negb (bSTDOUT g)
    then
      on_of_file (fun os => os << text "C " << setprecision 7
                           << floating (firstint (shower_sim array)) << text " "
                           << floating thick << text " "
                           << integer (shower_id (shower_sim array)) << endl)
    else
      on_cout (fun os => os << text "C " << setprecision 7
                           << floating (firstint (shower_sim array)) << text " "
                           << floating thick << text " "
                           << integer (shower_id (shower_sim array)) << endl)
  else mret tt.

(** The zenith angle of a photon from its direction cosines, as
    [writePhotons] computes it into [ze]. *)
Definition photon_zenith (cx cy : R) : R :=
  let ze := 1 - (cx * cx + cy * cy) in
  let ze := if Rgt_dec ze 0 then sqrt ze else 0 in
  acos ze.

(** [void VGrisu::writePhotons( bunch i_bunch, int i_tel )] *)
Definition writePhotons (i_bunch : bunch) (i_tel : Z) : M unit :=
  let x := b_x i_bunch in
  let y := b_y i_bunch in
  let az := cxx.atan2 (b_cy i_bunch) (b_cx i_bunch) in
  let ze := photon_zenith (b_cx i_bunch) (b_cy i_bunch) in
  '(az, x, y) ← transformCoord az x y;
  g ← get_this;
  if negb (bSTDOUT g)
  then
    on_of_file (setf ios_showpos);;
    on_of_file (fun os => os << text "P" << text " ");;
    on_of_file (fun os => os << setprecision 7 << floating x << text " ");;
    on_of_file (fun os => os << setprecision 7 << floating y << text " ");;
    on_of_file (fun os => os << setprecision 7 << floating (sin ze * cos az) << text " ");;
    on_of_file (fun os => os << setprecision 7 << floating (sin ze * sin az) << text " ");;
    on_of_file (fun os => os << setprecision 7 << floating (b_zem i_bunch) << text " ");;
    on_of_file (fun os => os << setprecision 7 << floating (b_ctime i_bunch) << text " ");;
    on_of_file (fun os => os << integer (cxx.to_int (b_lambda i_bunch)) << text " ");;
    on_of_file (fun os => os << integer 3 << text " ");;
    on_of_file (fun os => os << integer (i_tel + 1));;
    on_of_file (fun os => os << endl);;
    on_of_file (unsetf ios_showpos)
  else
    on_cout (setf ios_showpos);;
    on_cout (fun os => os << text "P" << text " ");;
    on_cout (fun os => os << setprecision 7 << floating x << text " ");;
    on_cout (fun os => os << setprecision 7 << floating y << text " ");;
    on_cout (fun os => os << setprecision 7 << floating (sin ze * cos az) << text " ");;
    on_cout (fun os => os << setprecision 7 << floating (sin ze * sin az) << text " ");;
    on_cout (fun os => os << setprecision 7 << floating (b_zem i_bunch) << text " ");;
    on_cout (fun os => os << setprecision 7 << floating (b_ctime i_bunch) << text " ");;
    on_cout (fun os => os << integer (cxx.to_int (b_lambda i_bunch)) << text " ");;
    on_cout (fun os => os << integer 3 << text " ");;
    on_cout (fun os => os << integer (i_tel + 1));;
    on_cout (fun os => os << endl);;
    on_cout (unsetf ios_showpos).


(** *** Sequences of calls on one object *)

Inductive call :=
| CallSetOutputfile (ofile : string)
| CallWriteRunHeader (buf1 : runheader_buffer) (f : option VCORSIKARunheader)
| CallWriteEvent (array : telescope_array) (printMoreInfo : bool)
| CallWritePhotons (i_bunch : bunch) (i_tel : Z).

Definition do_call (c : call) : M unit :=
  match c with
  | CallSetOutputfile ofile => setOutputfile ofile
  | CallWriteRunHeader buf1 f => writeRunHeader buf1 f
  | CallWriteEvent array printMoreInfo => writeEvent array printMoreInfo
  | CallWritePhotons i_bunch i_tel => writePhotons i_bunch i_tel
  end.

Fixpoint do_calls (cs : list call) : M unit :=
  match cs with
  | [] => mret tt
  | c :: cs' => do_call c;; do_calls cs'
  end.

(** The state an outcome ends in. *)
Definition final_state {A : Type} (o : outcome A) : State :=
  match o with
  | Done _ s => s
  | Exited _ s => s
  end.

(** The stream the object writes its records to. *)
Definition sink (s : State) : ostream :=
  if bSTDOUT (this_ s) then cout (env s) else of_file (this_ s).

(** Construction followed by a sequence of calls on the new object. *)
Definition session (raw : VGrisu) (iVersion : string) (id : Z) (cs : list call)
    (w : World) : outcome unit :=
  match VGrisu_new raw iVersion id w with
  | Done _ s => do_calls cs s
  | Exited status s => Exited status s
  end.

(** The calls that write records. *)
Definition is_write (c : call) : bool :=
  match c with
  | CallSetOutputfile _ => false
  | _ => true
  end.

(** Two objects that differ at most in [xoff] and [yoff]. *)
Definition same_but_offsets (g1 g2 : VGrisu) : Prop :=
  set_xoff 0 (set_yoff 0 g1) = set_xoff 0 (set_yoff 0 g2).

(** Two outcomes that end the same way, in the same environment, with
    objects that differ at most in [xoff] and [yoff]. *)
Definition same_outcome_but_offsets (o1 o2 : outcome unit) : Prop :=
  match o1, o2 with
  | Done _ s1, Done _ s2 =>
      env s1 = env s2 /\ same_but_offsets (this_ s1) (this_ s2)
  | Exited c1 s1, Exited c2 s2 =>
      c1 = c2 /\ env s1 = env s2 /\ same_but_offsets (this_ s1) (this_ s2)
  | _, _ => False
  end.

End VGrisu.

(** A header printer that only appends to the stream it is given. *)
Definition appends_only (f : option VCORSIKARunheader) : Prop :=
  match f with
  | None => True
  | Some p => forall os, is_open (printHeader p os) = is_open os
                         /\ exists l, sent (printHeader p os) = sent os ++ l
  end.

(** ** The record lines, as sequences of insertions *)

(** The "S" line written on a stream with flags [fl], precision [p] and
    pending width [w]. *)
Definition shower_line (fl : fmtflags) (p w : nat) (e x y dcos dsin fi : R)
    : list token :=
  [ Put fl p w (text "S");
    Put fl p 0 (text " "); Put fl 7 0 (floating e);
    Put fl 7 0 (text " "); Put fl 7 0 (floating x);
    Put fl 7 0 (text " "); Put fl 7 0 (floating y);
    Put fl 7 0 (text " "); Put fl 7 0 (floating dcos);
    Put fl 7 0 (text " "); Put fl 7 0 (floating dsin);
    Put fl 7 0 (text " "); Put fl 7 0 (floating fi);
    Put fl 7 0 (text " "); Put fl 7 0 (integer (-1));
    Put fl 7 0 (text " "); Put fl 7 0 (integer (-1));
    Put fl 7 0 (text " "); Put fl 7 0 (integer (-1));
    Newline ].

(** The "C" line that follows it when more information is asked for. *)
Definition corsika_line (fl : fmtflags) (fi thick : R) (id : Z) : list token :=
  [ Put fl 7 0 (text "C "); Put fl 7 0 (floating fi);
    Put fl 7 0 (text " "); Put fl 7 0 (floating thick);
    Put fl 7 0 (text " "); Put fl 7 0 (integer id);
    Newline ].

(** The "P" line written on a stream with flags [fl], precision [p] and
    pending width [w]. *)
Definition photon_line (fl : fmtflags) (p w : nat) (x y dx dy zem ctime : R)
    (lambda tel : Z) : list token :=
  [ Put fl p w (text "P"); Put fl p 0 (text " ");
    Put fl 7 0 (floating x); Put fl 7 0 (text " ");
    Put fl 7 0 (floating y); Put fl 7 0 (text " ");
    Put fl 7 0 (floating dx); Put fl 7 0 (text " ");
    Put fl 7 0 (floating dy); Put fl 7 0 (text " ");
    Put fl 7 0 (floating zem); Put fl 7 0 (text " ");
    Put fl 7 0 (floating ctime); Put fl 7 0 (text " ");
    Put fl 7 0 (integer lambda); Put fl 7 0 (text " ");
    Put fl 7 0 (integer 3); Put fl 7 0 (text " ");
    Put fl 7 0 (integer tel);
    Newline ].

(** The line a run header carries for a primary without a kascade code. *)
Definition unknown_particle_text : string :=
  tab3 (" Type code for primary particle (kascade ID) "
        +:+ tab " unknown particle (for kascade)").

(** ** Bit-exact evaluation of [redang]

    [float] is IEEE-754 binary32 and [double] binary64, every operation
    rounds to nearest-even in the type C++ evaluates it in. *)

Module Binary32.

Import SpecFloat.
Local Open Scope Z_scope.

Definition fprec : Z := 24.
Definition femax : Z := 128.
Definition dprec : Z := 53.
Definition demax : Z := 1024.

(** An [int] as a [double], and as a [float]. *)
Definition double_of_int (z : Z) : spec_float := binary_normalize dprec demax z 0 false.
Definition float_of_int (z : Z) : spec_float := binary_normalize fprec femax z 0 false.

(** A [float] operand promoted to [double], and a [double] stored in a
    [float]. *)
Definition to_double (v : spec_float) : spec_float :=
  match v with
  | S754_finite s m e => binary_round dprec demax s m e
  | _ => v
  end.
Definition to_float (v : spec_float) : spec_float :=
  match v with
  | S754_finite s m e => binary_round fprec femax s m e
  | _ => v
  end.

(** The range of [int]. *)
Definition INT_MIN : Z := - 2 ^ 31.
Definition INT_MAX : Z := 2 ^ 31 - 1.

(** [int( v )] of a [double]: the fractional part is discarded; there is
    no value ([None]) where C++ leaves the conversion undefined, which is
    where the result is no [int], or [v] is infinite or no number. *)
Definition to_int (v : spec_float) : option Z :=
  match v with
  | S754_zero _ => Some 0
  | S754_finite s m e =>
      let z := cond_Zopp s (match e with
                            | Z0 => Zpos m
                            | Zpos p => Zpos m * 2 ^ Zpos p
                            | Zneg p => Zpos m / 2 ^ Zpos p
                            end) in
      if (INT_MIN <=? z) && (z <=? INT_MAX) then Some z else None
  | _ => None
  end.

(** [M_PI] of <cmath>: 3.14159265358979323846 as a [double]. *)
Definition M_PI : spec_float := S754_finite false 7074237752028440 (-51).

Definition dmul := SFmul dprec demax.
Definition ddiv := SFdiv dprec demax.
Definition dadd := SFadd dprec demax.
Definition dsub := SFsub dprec demax.

(** [float VGrisu::redang( float iangle )] *)
Definition redang (iangle : spec_float) : option spec_float :=
  if SFleb (float_of_int 0) iangle
  then
    match to_int (ddiv (to_double iangle) (dmul (double_of_int 2) M_PI)) with
    | Some n =>
        Some (to_float
                (dsub (to_double iangle)
                      (dmul (dmul (double_of_int n) (double_of_int 2)) M_PI)))
    | None => None
    end
  else
    match to_int (ddiv (to_double iangle) (dmul (double_of_int 2) M_PI)) with
    | Some n =>
        Some (to_float
                (dadd (dadd (dmul (double_of_int 2) M_PI) (to_double iangle))
                      (dmul (dmul (double_of_int n) (double_of_int 2)) M_PI)))
    | None => None
    end.

(** The [double] 1.5. *)
Definition one_and_half : spec_float := binary_normalize dprec demax 3 (-1) false.

(** [void VGrisu::transformCoord( float& az, float& x, float& y )]: the
    values left in [az], [x] and [y]. *)
Definition transformCoord (az x y : spec_float)
    : option (spec_float * spec_float * spec_float) :=
  match redang az with
  | Some r =>
      match redang (to_float (dsub (dmul one_and_half M_PI) (to_double r))) with
      | Some az' =>
          let i_y := y in
          let y := to_float (dmul (double_of_int (-1)) (to_double x)) in
          let x := to_float (dmul (double_of_int (-1)) (to_double i_y)) in
          Some (az', x, y)
      | None => None
      end
  | None => None
  end.

(** The [float] a decimal literal [n / d] denotes, for [n] and [d] that
    are [float]s themselves: the quotient rounded once. *)
Definition float_of_ratio (n d : Z) : spec_float :=
  SFdiv fprec femax (float_of_int n) (float_of_int d).

(** [2. * M_PI], and the [float] nearest to it. *)
Definition two_pi : spec_float := dmul (double_of_int 2) M_PI.
Definition two_pi_f : spec_float := to_float two_pi.

(** [v < 2. * M_PI] and [- 2. * M_PI < v], for a [float] [v]. *)
Definition below_two_pi (v : spec_float) : bool :=
  SFltb (to_double v) two_pi.
Definition above_minus_two_pi (v : spec_float) : bool :=
  SFltb (SFopp two_pi) (to_double v).

(** [v < 0] on floats. *)
Definition is_negative (v : spec_float) : bool :=
  SFltb v (float_of_int 0).

End Binary32.

(** ** A concrete installation, for the examples *)

Module Examples.

(** An atmosphere library that leaves its arguments alone. *)
Definition null_atmosphere : IACT :=
  {| atm_state := unit;
     atmset_ := fun id h _ => (id, h, tt);
     thickx_ := fun _ _ => 0 |}.

#[local] Existing Instance null_atmosphere.

Definition raw_object : VGrisu :=
  MkVGrisu 0 "" false 0 0 0 0 0 0 ∅ closed_stream.

(** A process whose [cout] is as the library sets it up, on a file system
    where every path but "/" can be created. *)
Definition fresh_world : World :=
  MkWorld (Ostream true no_flags 6 0 [])
          (fun path => negb (String.eqb path "/")) tt [].

Definition zero_header : runheader_buffer := fun _ => 0.

Definition shower_1_2 : telescope_array :=
  {| shower_sim := {| energy := 1; azimuth := 0; altitude := 90;
                      xcore := 1; ycore := 2; firstint := 10;
                      shower_id := 1 |} |}.

Definition photon_0 : bunch :=
  {| b_x := 0; b_y := 0; b_cx := 0; b_cy := 0;
     b_ctime := 0; b_zem := 0; b_lambda := 300 |}.

(** The object after construction and [setOutputfile( "stdout" )]. *)
Definition console_object : State :=
  final_state (session raw_object "v1" (-1) [CallSetOutputfile "stdout"] fresh_world).

(** The object after construction and [setOutputfile( "photons.txt" )]. *)
Definition file_object : State :=
  final_state (session raw_object "v1" (-1) [CallSetOutputfile "photons.txt"] fresh_world).

End Examples.

(** ** Relating two runs *)

Section Relating.

Context `{Atm : IACT}.

(** Two outcomes of the same kind, with results related by [RA] and final
    states related by [Rs]. *)
Definition rel_outcome (Rs : State -> State -> Prop) {A : Type}
    (RA : A -> A -> Prop) (o1 o2 : outcome A) : Prop :=
  match o1, o2 with
  | Done a1 t1, Done a2 t2 => RA a1 a2 /\ Rs t1 t2
  | Exited c1 t1, Exited c2 t2 => c1 = c2 /\ Rs t1 t2
  | _, _ => False
  end.

(** Two computations that take related states to related outcomes. *)
Definition rel (Rs : State -> State -> Prop) {A : Type}
    (RA : A -> A -> Prop) (m1 m2 : M A) : Prop :=
  forall s1 s2, Rs s1 s2 -> rel_outcome Rs RA (m1 s1) (m2 s2).

(** States with the same environment and objects that differ at most in
    [xoff] and [yoff]. *)
Definition off_rel (s1 s2 : State) : Prop :=
  env s1 = env s2 /\ same_but_offsets (this_ s1) (this_ s2).

(** One state, of an object that writes to [cout] and whose file holds
    nothing but tokens of [L]. *)
Definition console_rel (L : list token) (s1 s2 : State) : Prop :=
  s1 = s2
  /\ bSTDOUT (this_ s1) = true
  /\ forall t, t ∈ sent (of_file (this_ s1)) -> t ∈ L.

(** What such a run reads of the object: one object, writing to [cout]. *)
Definition reads_console (g1 g2 : VGrisu) : Prop :=
  g1 = g2 /\ bSTDOUT g1 = true.

End Relating.


(** ** Values, for the statements about [redang] *)

(** The value [redang] returns, as the expression of its two branches
    over the reals. *)
Definition redang_value (a : R) : R :=
  if Rge_dec a 0
  then a - IZR (cxx.to_int (a / (2 * PI))) * 2 * PI
  else 2 * PI + a + IZR (cxx.to_int (a / (2 * PI))) * 2 * PI.

(** ** The text of a record *)

(** An integer as it is written while [ios::showpos] is set. *)
Definition signed (z : Z) : string :=
  (if (0 <=? z)%Z then "+" else "") +:+ pretty z.


(** ** What no member function assigns *)

(** The members of an object that are set at construction: all but
    [bSTDOUT], [xoff], [yoff] and the file stream. *)
Definition same_constants (g1 g2 : VGrisu) : Prop :=
  degrad g1 = degrad g2
  /\ fVersion g1 = fVersion g2
  /\ primID g1 = primID g2
  /\ qeff g1 = qeff g2
  /\ observation_height g1 = observation_height g2
  /\ atm_id g1 = atm_id g2
  /\ particles g1 = particles g2.

Section Unchanged.

Context `{Atm : IACT}.

(** One state, whose object has the constants of [g0] and whose
    atmosphere is the one of [w0], set as often. *)
Definition fixed_rel (g0 : VGrisu) (w0 : World) (s1 s2 : State) : Prop :=
  s1 = s2
  /\ same_constants (this_ s1) g0
  /\ atm (env s1) = atm w0
  /\ atmset_calls (env s1) = atmset_calls w0.

(** What a run reads of such an object. *)
Definition reads_fixed (g0 : VGrisu) (g1 g2 : VGrisu) : Prop :=
  g1 = g2 /\ same_constants g1 g0.

End Unchanged.

(** ** A formatting for the examples *)

(** The formatting of floating values that writes no character. *)
Definition no_digits : fmtflags -> nat -> R -> string := fun _ _ _ => "".

(** * Properties *)

(** ** Conversion to [int] *)

Lemma to_int_nonneg (v : R) :
  0 <= v -> IZR (cxx.to_int v) <= v < IZR (cxx.to_int v) + 1.
Proof.
  intros Hv. unfold cxx.to_int. destruct (Rle_dec 0 v) as [_|Hn]; [|lra].
  destruct (base_Int_part v) as [H1 H2]. lra.
Qed.

Lemma to_int_neg (v : R) :
  v < 0 -> v <= IZR (cxx.to_int v) < v + 1.
Proof.
  intros Hv. unfold cxx.to_int. destruct (Rle_dec 0 v) as [Hn|_]; [lra|].
  destruct (base_Int_part (- v)) as [H1 H2]. rewrite opp_IZR. lra.
Qed.

Lemma IZR_between (a : R) (b v : Z) :
  a <= IZR b < a + 1 -> a <= IZR v < a + 1 -> v = b.
Proof.
  intros [H1 H2] [H3 H4].
  assert (A : (v < b + 1)%Z) by (apply lt_IZR; rewrite plus_IZR; lra).
  assert (B : (b < v + 1)%Z) by (apply lt_IZR; rewrite plus_IZR; lra).
  lia.
Qed.

Lemma to_int_unique_neg (v : R) (z : Z) :
  v < 0 -> v <= IZR z < v + 1 -> cxx.to_int v = z.
Proof. intros Hv Hz. exact (IZR_between _ _ _ Hz (to_int_neg _ Hv)). Qed.

Lemma to_int_IZR (z : Z) : cxx.to_int (IZR z) = z.
Proof.
  unfold cxx.to_int. destruct (Rle_dec 0 (IZR z)) as [H|H].
  - symmetry. apply Int_part_spec. lra.
  - rewrite <- opp_IZR. rewrite <- (Int_part_spec (IZR (- z)) (- z)%Z); [lia|lra].
Qed.

Lemma PI_bounds : 3 < PI <= 4.
Proof. pose proof PI2_3_2. pose proof PI_4. lra. Qed.


(** ** Running the member functions *)

Section Stepping.

Context `{Atm : IACT}.

Lemma step_eq {A B : Type} (o : outcome B) (m : M A) (k : A -> M B)
    (s : State) (a : A) (s' : State) :
  o = mbind k m s -> m s = Done a s' -> o = k a s'.
Proof. intros -> H. unfold mbind, M_bind. rewrite H. reflexivity. Qed.

Lemma if_negb_true {A : Type} (a b : A) : (if negb true then a else b) = b.
Proof. reflexivity. Qed.

Lemma if_negb_false {A : Type} (a b : A) : (if negb false then a else b) = a.
Proof. reflexivity. Qed.

End Stepping.

Ltac run_M :=
  lazy beta iota zeta delta
    [writeEvent writePhotons writeRunHeader setOutputfile of_file_open
     transformCoord redang
     particles_subscript map_subscript call_atmset_ makeParticleMap
     constructor_body VGrisu_new before_constructor session
     do_call do_calls
     mbind M_bind mret M_ret on_of_file on_cout upd_this upd_env
     get_this get_env exit_ this_ env sink final_state
     set_degrad set_fVersion set_bSTDOUT set_primID set_xoff set_yoff set_qeff
     set_observation_height set_atm_id set_particles set_of_file set_cout
     degrad fVersion bSTDOUT primID xoff yoff qeff observation_height atm_id
     particles of_file cout can_open atm atmset_calls
     shl insert put_endl set_precision set_width setf unsetf closed_stream
     is_open flags precision width sent
     negb andb orb].

Ltac run_M_in H :=
  lazy beta iota zeta delta
    [writeEvent writePhotons writeRunHeader setOutputfile of_file_open
     transformCoord redang
     particles_subscript map_subscript call_atmset_ makeParticleMap
     constructor_body VGrisu_new before_constructor session
     do_call do_calls
     mbind M_bind mret M_ret on_of_file on_cout upd_this upd_env
     get_this get_env exit_ this_ env sink final_state
     set_degrad set_fVersion set_bSTDOUT set_primID set_xoff set_yoff set_qeff
     set_observation_height set_atm_id set_particles set_of_file set_cout
     degrad fVersion bSTDOUT primID xoff yoff qeff observation_height atm_id
     particles of_file cout can_open atm atmset_calls
     shl insert put_endl set_precision set_width setf unsetf closed_stream
     is_open flags precision width sent
     negb andb orb] in H.

(** One statement of a member function run on a known state, in a
    hypothesis [H : o = (m ≫= k) s]. *)
Ltac step H :=
  match type of H with
  | _ = mbind ?k ?m ?s =>
      eapply step_eq in H; [|run_M; reflexivity]; cbv beta iota in H
  end.

Ltac steps H :=
  repeat (lazymatch type of H with
          | context [printHeader _ _] => fail
          | _ => step H
          end).

(** [H : o = writeRunHeader buf1 f (MkState g w)], with the first
    statement run and the branch on [bSTDOUT] taken. *)
Ltac enter_writeRunHeader H :=
  match type of H with
  | _ = writeRunHeader ?buf1 ?f (MkState ?G ?W) =>
      let t := eval unfold writeRunHeader in (writeRunHeader buf1 f) in
      match t with
      | mbind ?k get_this =>
          let Hunf := fresh "Hunf" in
          assert (Hunf : forall g w,
                     writeRunHeader buf1 f (MkState g w) = k g (MkState g w))
            by (intros; reflexivity);
          rewrite (Hunf G W) in H; clear Hunf; cbv beta in H;
          first [ rewrite (eq_refl : bSTDOUT G = true) in H;
                  rewrite if_negb_true in H
                | rewrite (eq_refl : bSTDOUT G = false) in H;
                  rewrite if_negb_false in H ]
      end
  end.

(** The stream a well-behaved printer returns is the one it was given,
    with more sent. *)
Ltac known_printer Happ H :=
  match type of H with
  | context [printHeader ?p ?os] =>
      let Ho := fresh "Ho" in let l := fresh "l" in let Hl := fresh "Hl" in
      let o1 := fresh "o" in let l1 := fresh "snt" in
      destruct (Happ os) as [Ho [l Hl]];
      destruct (printHeader p os) as [o1 ? ? ? l1];
      cbn [is_open sent] in Ho, Hl; subst o1 l1
  end.

Ltac find_token :=
  repeat rewrite <- app_assoc; cbn [app];
  apply list_elem_of_In; cbn [In];
  repeat first [ left; reflexivity | right ].

Section Properties.

Context `{Atm : IACT}.

(** ** [redang] *)

Lemma redang_run (a : R) (s : State) :
  redang a s
  = Done (if Rge_dec a 0
          then a - IZR (cxx.to_int (a / (2 * PI))) * 2 * PI
          else 2 * PI + a + IZR (cxx.to_int (a / (2 * PI))) * 2 * PI) s.
Proof. reflexivity. Qed.

(** A call of [redang] returns, leaves object and environment as they
    were, and its value does not depend on them. *)
Lemma redang_pure (a : R) :
  exists r, forall s : State, redang a s = Done r s.
Proof. eexists. intros s. apply redang_run. Qed.

(** On non-negative angles [redang] reduces into [0, 2 PI). *)
Lemma redang_nonneg (a : R) (s : State) :
  0 <= a -> exists r, redang a s = Done r s /\ 0 <= r < 2 * PI.
Proof.
  intros Ha. rewrite redang_run. destruct (Rge_dec a 0) as [_|H]; [|lra].
  eexists; split; [reflexivity|].
  pose proof PI_bounds as [P1 P2].
  assert (E : a / (2 * PI) * (2 * PI) = a) by (field; lra).
  assert (Hq : 0 <= a / (2 * PI)).
  { apply Rmult_le_reg_r with (2 * PI); [lra|]. rewrite E. lra. }
  destruct (to_int_nonneg _ Hq) as [H1 H2].
  set (n := IZR (cxx.to_int (a / (2 * PI)))) in *.
  split.
  - assert (n * (2 * PI) <= a / (2 * PI) * (2 * PI))
      by (apply Rmult_le_compat_r; lra).
    lra.
  - assert (a / (2 * PI) * (2 * PI) < (n + 1) * (2 * PI))
      by (apply Rmult_lt_compat_r; lra).
    lra.
Qed.

(** On the last negative turn [redang] adds one turn. *)
Lemma redang_last_turn (a : R) (s : State) :
  - (2 * PI) < a < 0 -> redang a s = Done (2 * PI + a) s.
Proof.
  intros [H1 H2]. rewrite redang_run. destruct (Rge_dec a 0) as [H|_]; [lra|].
  pose proof PI_bounds as [P1 P2].
  assert (E : a / (2 * PI) * (2 * PI) = a) by (field; lra).
  rewrite (to_int_unique_neg (a / (2 * PI)) 0).
  - f_equal. lra.
  - apply Rmult_lt_reg_r with (2 * PI); [lra|]. rewrite E. lra.
  - split.
    + apply Rmult_le_reg_r with (2 * PI); [lra|]. rewrite E. lra.
    + apply Rmult_lt_reg_r with (2 * PI); [lra|].
      rewrite Rmult_plus_distr_r, E. lra.
Qed.

(** From one full negative turn on, [redang] returns a negative value. *)
Lemma redang_below (a : R) (s : State) :
  a <= - (2 * PI) -> exists r, redang a s = Done r s /\ r < 0.
Proof.
  intros Ha. rewrite redang_run. pose proof PI_bounds as [P1 P2].
  destruct (Rge_dec a 0) as [H|_]; [lra|].
  eexists; split; [reflexivity|].
  assert (E : a / (2 * PI) * (2 * PI) = a) by (field; lra).
  assert (Hq : a / (2 * PI) <= -1).
  { apply Rmult_le_reg_r with (2 * PI); [lra|]. rewrite E. lra. }
  destruct (to_int_neg (a / (2 * PI))) as [H1 H2]; [lra|].
  set (n := IZR (cxx.to_int (a / (2 * PI)))) in *.
  assert (H : n * (2 * PI) < (a / (2 * PI) + 1) * (2 * PI))
    by (apply Rmult_lt_compat_r; lra).
  rewrite Rmult_plus_distr_r, E in H. lra.
Qed.

(** C1 (as the code behaves): at the angles -10 and -2 PI, both at least
    one full turn below zero, [redang] returns its argument unchanged, a
    negative value outside [0, 2 PI); in particular a negative multiple of
    2 PI is not reduced to 0. *)
Theorem redang_full_negative_turn (s : State) :
  redang (-10) s = Done (-10) s
  /\ redang (- (2 * PI)) s = Done (- (2 * PI)) s.
Proof.
  pose proof PI_bounds as [P1 P2]. split.
  - rewrite redang_run. destruct (Rge_dec (-10) 0) as [H|_]; [lra|].
    assert (E : -10 / (2 * PI) * (2 * PI) = -10) by (field; lra).
    rewrite (to_int_unique_neg (-10 / (2 * PI)) (-1)).
    + f_equal. lra.
    + apply Rmult_lt_reg_r with (2 * PI); [lra|]. rewrite E. lra.
    + split.
      * apply Rmult_le_reg_r with (2 * PI); [lra|]. rewrite E. lra.
      * apply Rmult_lt_reg_r with (2 * PI); [lra|].
        rewrite Rmult_plus_distr_r, E. lra.
  - rewrite redang_run. destruct (Rge_dec (- (2 * PI)) 0) as [H|_]; [lra|].
    replace (- (2 * PI) / (2 * PI)) with (IZR (-1)) by (field; lra).
    rewrite to_int_IZR. f_equal. lra.
Qed.

(** ** [transformCoord] *)

(** What [transformCoord] returns, through the two calls of [redang]. *)
Lemma transformCoord_run (az x y : R) :
  exists r az',
    (forall s : State, redang az s = Done r s)
    /\ (forall s : State, redang (1.5 * PI - r) s = Done az' s)
    /\ (forall s : State, transformCoord az x y s = Done (az', - y, - x) s).
Proof.
  destruct (redang_pure az) as [r Hr].
  destruct (redang_pure (1.5 * PI - r)) as [az' Haz].
  exists r, az'. split; [exact Hr|]. split; [exact Haz|].
  intros s. unfold transformCoord, mbind, M_bind. rewrite Hr.
  unfold cxx.M_PI. rewrite Haz. unfold mret, M_ret.
  do 2 f_equal; try f_equal; lra.
Qed.

(** C2: [transformCoord] leaves in [az] the value of
    [redang( 1.5 PI - redang( az ) )], in [x] the value [- y] and in [y]
    the value [- x]; the three values are the same from every state of
    object and environment, and the call changes neither. *)
Theorem transformCoord_pure (az x y : R) :
  exists r az',
    (forall s : State, redang az s = Done r s)
    /\ (forall s : State, redang (1.5 * PI - r) s = Done az' s)
    /\ (forall s : State, transformCoord az x y s = Done (az', - y, - x) s).
Proof.
  destruct (redang_pure az) as [r Hr].
  destruct (redang_pure (1.5 * PI - r)) as [az' Haz].
  exists r, az'. split; [exact Hr|]. split; [exact Haz|].
  intros s. unfold transformCoord, mbind, M_bind. rewrite Hr.
  unfold cxx.M_PI. rewrite Haz. unfold mret, M_ret.
  do 2 f_equal; try f_equal; lra.
Qed.

(** ** Running the member functions *)

Lemma snap_cases (v : R) :
  (Rabs v < 1e-8 -> (if Rlt_dec (cxx.fabs v) 1e-8 then 0 else v) = 0)
  /\ (~ Rabs v < 1e-8 -> (if Rlt_dec (cxx.fabs v) 1e-8 then 0 else v) = v).
Proof.
  unfold cxx.fabs. destruct (Rlt_dec (Rabs v) 1e-8); split; intros; tauto.
Qed.

(** What [writeEvent] does on an object whose sink takes output. *)
Lemma writeEvent_run (array : telescope_array) (more : bool) (s : State) :
  is_open (sink s) = true ->
  let sh := shower_sim array in
  let ze := (90 - altitude sh) / degrad (this_ s) in
  exists az' dcos dsin s',
    (forall t : State,
       transformCoord (azimuth sh / degrad (this_ s)) (xcore sh) (ycore sh) t
       = Done (az', - ycore sh, - xcore sh) t)
    /\ writeEvent array more s = Done tt s'
    /\ (Rabs (sin ze * cos az') < 1e-8 -> dcos = 0)
    /\ (~ Rabs (sin ze * cos az') < 1e-8 -> dcos = sin ze * cos az')
    /\ (Rabs (sin ze * sin az') < 1e-8 -> dsin = 0)
    /\ (~ Rabs (sin ze * sin az') < 1e-8 -> dsin = sin ze * sin az')
    /\ sent (sink s')
       = sent (sink s)
         ++ shower_line (flags (sink s)) (precision (sink s)) (width (sink s))
              (energy sh) (- ycore sh) (- xcore sh) dcos dsin (firstint sh)
         ++ (if more
             then corsika_line (flags (sink s)) (firstint sh)
                    (thickx_ (100 * firstint sh) (atm (env s)) / cos ze)
                    (shower_id sh)
             else [])
    /\ flags (sink s') = flags (sink s)
    /\ precision (sink s') = 7%nat
    /\ width (sink s') = 0%nat
    /\ is_open (sink s') = true
    /\ xoff (this_ s') = xcore sh
    /\ yoff (this_ s') = ycore sh
    /\ bSTDOUT (this_ s') = bSTDOUT (this_ s).
Proof.
  intros Hopen sh ze.
  destruct (transformCoord_run (azimuth sh / degrad (this_ s)) (xcore sh) (ycore sh))
    as (r & az' & _ & _ & Htc).
  exists az'.
  exists (if Rlt_dec (cxx.fabs (sin ze * cos az')) 1e-8 then 0 else sin ze * cos az').
  exists (if Rlt_dec (cxx.fabs (sin ze * sin az')) 1e-8 then 0 else sin ze * sin az').
  destruct (snap_cases (sin ze * cos az')) as [C1 C2].
  destruct (snap_cases (sin ze * sin az')) as [S1 S2].
  pose proof (Htc s) as E. subst sh ze.
  destruct s as [[dg fv bs pid xo yo qe oh aid pa ofl] [co cn at_ calls]].
  run_M_in E. injection E as E1 E2 E3.
  destruct bs.
  - destruct co as [o fl p wd snt]. run_M_in Hopen. subst o.
    destruct more.
    all: eexists; (split; [exact Htc|]); split;
      [run_M; rewrite E1, E2, E3; reflexivity|].
    all: run_M; unfold shower_line, corsika_line;
      repeat rewrite <- app_assoc; cbn [app];
      (split; [exact C1|]); (split; [exact C2|]);
      (split; [exact S1|]); (split; [exact S2|]);
      repeat split; reflexivity.
  - destruct ofl as [o fl p wd snt]. run_M_in Hopen. subst o.
    destruct more.
    all: eexists; (split; [exact Htc|]); split;
      [run_M; rewrite E1, E2, E3; reflexivity|].
    all: run_M; unfold shower_line, corsika_line;
      repeat rewrite <- app_assoc; cbn [app];
      (split; [exact C1|]); (split; [exact C2|]);
      (split; [exact S1|]); (split; [exact S2|]);
      repeat split; reflexivity.
Qed.

(** What [writePhotons] does on an object whose sink takes output. *)
Lemma writePhotons_run (i_bunch : bunch) (i_tel : Z) (s : State) :
  is_open (sink s) = true ->
  let ze := photon_zenith (b_cx i_bunch) (b_cy i_bunch) in
  exists az' s',
    (forall t : State,
       transformCoord (cxx.atan2 (b_cy i_bunch) (b_cx i_bunch))
                      (b_x i_bunch) (b_y i_bunch) t
       = Done (az', - b_y i_bunch, - b_x i_bunch) t)
    /\ writePhotons i_bunch i_tel s = Done tt s'
    /\ sent (sink s')
       = sent (sink s)
         ++ photon_line (flags_or (flags (sink s)) ios_showpos)
              (precision (sink s)) (width (sink s))
              (- b_y i_bunch) (- b_x i_bunch)
              (sin ze * cos az') (sin ze * sin az')
              (b_zem i_bunch) (b_ctime i_bunch)
              (cxx.to_int (b_lambda i_bunch)) (i_tel + 1)
    /\ flags (sink s')
       = flags_clear (flags_or (flags (sink s)) ios_showpos) ios_showpos
    /\ precision (sink s') = 7%nat
    /\ width (sink s') = 0%nat
    /\ is_open (sink s') = true
    /\ bSTDOUT (this_ s') = bSTDOUT (this_ s).
Proof.
  intros Hopen ze.
  destruct (transformCoord_run (cxx.atan2 (b_cy i_bunch) (b_cx i_bunch))
              (b_x i_bunch) (b_y i_bunch)) as (r & az' & _ & _ & Htc).
  exists az'.
  pose proof (Htc s) as E. subst ze.
  destruct s as [[dg fv bs pid xo yo qe oh aid pa ofl] [co cn at_ calls]].
  run_M_in E. injection E as E1 E2 E3.
  destruct bs.
  - destruct co as [o fl p wd snt]. run_M_in Hopen. subst o.
    eexists. split; [exact Htc|]. split;
      [run_M; rewrite E1, E2, E3; reflexivity|].
    run_M. unfold photon_line. repeat rewrite <- app_assoc. cbn [app].
    repeat split; reflexivity.
  - destruct ofl as [o fl p wd snt]. run_M_in Hopen. subst o.
    eexists. split; [exact Htc|]. split;
      [run_M; rewrite E1, E2, E3; reflexivity|].
    run_M. unfold photon_line. repeat rewrite <- app_assoc. cbn [app].
    repeat split; reflexivity.
Qed.



(** ** Shower lines *)

(** C5: the shower line [writeEvent] writes carries, after the energy and
    the transformed core position, the two quantities
    [sin( ze ) * cos( az' )] and [sin( ze ) * sin( az' )], each replaced
    by 0 when its magnitude is below 1e-8 and unchanged otherwise. *)
Theorem writeEvent_snaps_direction_cosines
    (array : telescope_array) (more : bool) (s : State) :
  is_open (sink s) = true ->
  let sh := shower_sim array in
  let ze := (90 - altitude sh) / degrad (this_ s) in
  exists az' dcos dsin rest s',
    (forall t : State,
       transformCoord (azimuth sh / degrad (this_ s)) (xcore sh) (ycore sh) t
       = Done (az', - ycore sh, - xcore sh) t)
    /\ writeEvent array more s = Done tt s'
    /\ sent (sink s')
       = sent (sink s)
         ++ shower_line (flags (sink s)) (precision (sink s)) (width (sink s))
              (energy sh) (- ycore sh) (- xcore sh) dcos dsin (firstint sh)
         ++ rest
    /\ (Rabs (sin ze * cos az') < 1e-8 -> dcos = 0)
    /\ (~ Rabs (sin ze * cos az') < 1e-8 -> dcos = sin ze * cos az')
    /\ (Rabs (sin ze * sin az') < 1e-8 -> dsin = 0)
    /\ (~ Rabs (sin ze * sin az') < 1e-8 -> dsin = sin ze * sin az').
Proof.
  intros Hopen sh ze.
  destruct (writeEvent_run array more s Hopen)
    as (az' & dcos & dsin & s' & Htc & Hrun & C1 & C2 & S1 & S2 & Hsent & _).
  exists az', dcos, dsin. eexists. exists s'.
  split; [exact Htc|]. split; [exact Hrun|]. split; [exact Hsent|].
  split; [exact C1|]. split; [exact C2|]. split; [exact S1|]. exact S2.
Qed.

(** ** Photon lines *)



(** C10 (as the code behaves): a photon line carries
    [sin( ze ) * cos( az' )] and [sin( ze ) * sin( az' )] as computed, with
    no replacement by 0; every value of the line is written with the sign
    flag set, and the flag is clear afterwards; the fixed and right flags
    are as before, the precision is left at 7 and the pending width at 0. *)
Theorem writePhotons_line_and_format
    (i_bunch : bunch) (i_tel : Z) (s : State) :
  is_open (sink s) = true ->
  let ze := photon_zenith (b_cx i_bunch) (b_cy i_bunch) in
  exists az' s',
    (forall t : State,
       transformCoord (cxx.atan2 (b_cy i_bunch) (b_cx i_bunch))
                      (b_x i_bunch) (b_y i_bunch) t
       = Done (az', - b_y i_bunch, - b_x i_bunch) t)
    /\ writePhotons i_bunch i_tel s = Done tt s'
    /\ sent (sink s')
       = sent (sink s)
         ++ photon_line (flags_or (flags (sink s)) ios_showpos)
              (precision (sink s)) (width (sink s))
              (- b_y i_bunch) (- b_x i_bunch)
              (sin ze * cos az') (sin ze * sin az')
              (b_zem i_bunch) (b_ctime i_bunch)
              (cxx.to_int (b_lambda i_bunch)) (i_tel + 1)
    /\ showpos (flags_or (flags (sink s)) ios_showpos) = true
    /\ showpos (flags (sink s')) = false
    /\ fixed (flags (sink s')) = fixed (flags (sink s))
    /\ right (flags (sink s')) = right (flags (sink s))
    /\ precision (sink s') = 7%nat
    /\ width (sink s') = 0%nat.
Proof.
  intros Hopen ze.
  destruct (writePhotons_run i_bunch i_tel s Hopen)
    as (az' & s' & Htc & Hrun & Hsent & Hfl & Hp & Hw & _).
  exists az', s'.
  split; [exact Htc|]. split; [exact Hrun|]. split; [exact Hsent|].
  rewrite Hfl. destruct (flags (sink s)) as [fx rg sp].
  cbn. rewrite !orb_false_r, !andb_true_r, orb_true_r.
  repeat split; try reflexivity; assumption.
Qed.


(** ** Construction *)

(** What the constructor leaves, for either sign of [id]. *)
Lemma VGrisu_new_run (raw : VGrisu) (iVersion : string) (id : Z) (w : World) :
  VGrisu_new raw iVersion id w
  = Done tt
      (MkState
         (MkVGrisu (45 / atan 1) iVersion false 0 0 0 1
            (if (0 <=? id)%Z then snd (fst (atmset_ id 100 (atm w))) else 100)
            (if (0 <=? id)%Z then fst (fst (atmset_ id 100 (atm w))) else id)
            (<[13%Z:=14%Z]> (<[14%Z:=13%Z]> (<[16%Z:=12%Z]> (<[10%Z:=11%Z]>
             (<[12%Z:=10%Z]> (<[11%Z:=9%Z]> (<[9%Z:=8%Z]> (<[8%Z:=7%Z]>
             (<[7%Z:=6%Z]> (<[6%Z:=5%Z]> (<[5%Z:=4%Z]> (<[3%Z:=3%Z]>
             (<[2%Z:=2%Z]> (<[1%Z:=1%Z]> ∅))))))))))))))
            closed_stream)
         (if (0 <=? id)%Z
          then MkWorld (cout w) (can_open w) (snd (atmset_ id 100 (atm w)))
                       (atmset_calls w ++ [(id, 100)])
          else w)).
Proof.
  destruct raw as [dg fv bs pid xo yo qe oh aid pa ofl].
  destruct w as [co cn at_ calls].
  destruct (0 <=? id)%Z eqn:Hid.
  - run_M. rewrite Hid. run_M.
    destruct (atmset_ id 100 at_) as [[id' h'] a']. reflexivity.
  - run_M. rewrite Hid. run_M. reflexivity.
Qed.

(** C9 (as the code behaves): after construction [qeff] is 1; with a
    negative [id] the observation height is 100 and [atmset_] has not been
    called; with a non-negative [id], [atmset_] has been called exactly
    once, on [id] and 100, and the observation height is the value it
    left, which is 100 again when [atmset_] leaves its arguments alone. *)
Theorem constructor_defaults (raw : VGrisu) (iVersion : string) (id : Z) (w : World) :
  exists s,
    VGrisu_new raw iVersion id w = Done tt s
    /\ qeff (this_ s) = 1
    /\ ((id < 0)%Z ->
        observation_height (this_ s) = 100
        /\ atmset_calls (env s) = atmset_calls w
        /\ atm (env s) = atm w)
    /\ ((0 <= id)%Z ->
        atmset_calls (env s) = atmset_calls w ++ [(id, 100)]
        /\ observation_height (this_ s) = snd (fst (atmset_ id 100 (atm w)))
        /\ atm_id (this_ s) = fst (fst (atmset_ id 100 (atm w)))
        /\ atm (env s) = snd (atmset_ id 100 (atm w))).
Proof.
  eexists. split; [apply VGrisu_new_run|]. split; [reflexivity|]. split.
  - intros Hid. apply Z.leb_gt in Hid. rewrite Hid. repeat split; reflexivity.
  - intros Hid. apply Z.leb_le in Hid. rewrite Hid. repeat split; reflexivity.
Qed.

(** ** The particle map *)

Lemma constructed_particles (raw : VGrisu) (iVersion : string) (id : Z) (w : World) :
  exists s,
    VGrisu_new raw iVersion id w = Done tt s
    /\ particles (this_ s) !! 1%Z = Some 1%Z
    /\ particles (this_ s) !! 14%Z = Some 13%Z
    /\ particles (this_ s) !! 99%Z = None
    /\ particles (this_ s) !! 4%Z = None
    /\ particles (this_ s) !! 15%Z = None.
Proof.
  eexists. split; [apply VGrisu_new_run|]. cbn [this_ particles].
  repeat split; reflexivity.
Qed.


(** ** Run headers *)

Lemma writeRunHeader_unknown_run
    (buf1 : runheader_buffer) (f : option VCORSIKARunheader) (s : State) :
  particles (this_ s) !! cxx.to_int (buf1 2%nat) = None ->
  is_open (sink s) = true ->
  appends_only f ->
  exists s' l,
    writeRunHeader buf1 f s = Done tt s'
    /\ sent (sink s') = sent (sink s) ++ l
    /\ Put (flags (sink s)) (precision (sink s)) 0 (text unknown_particle_text) ∈ l
    /\ particles (this_ s') = particles (this_ s)
    /\ bSTDOUT (this_ s') = bSTDOUT (this_ s)
    /\ is_open (sink s') = true.
Proof.
  intros Hlook Hopen Happ.
  destruct s as [[dg fv bs pid xo yo qe oh aid pa ofl] [co cn at_ calls]].
  cbn [this_ particles] in Hlook.
  remember (writeRunHeader buf1 f _) as o eqn:Hrun.
  destruct bs.
  - destruct co as [o' fl p wd snt]. run_M_in Hopen. subst o'.
    destruct f as [pr|]; cbn [appends_only] in Happ.
    + enter_writeRunHeader Hrun.
      rewrite (Hlook : particles (MkVGrisu _ _ _ _ _ _ _ _ _ pa _) !! _ = None) in Hrun.
      steps Hrun. known_printer Happ Hrun. steps Hrun. run_M_in Hrun. subst o.
      eexists. eexists. split; [reflexivity|]. run_M.
      split; [repeat rewrite <- app_assoc; reflexivity|].
      split; [|repeat split; reflexivity].
      unfold unknown_particle_text. find_token.
    + enter_writeRunHeader Hrun.
      rewrite (Hlook : particles (MkVGrisu _ _ _ _ _ _ _ _ _ pa _) !! _ = None) in Hrun.
      steps Hrun. run_M_in Hrun. subst o.
      eexists. eexists. split; [reflexivity|]. run_M.
      split; [repeat rewrite <- app_assoc; reflexivity|].
      split; [|repeat split; reflexivity].
      unfold unknown_particle_text. find_token.
  - destruct ofl as [o' fl p wd snt]. run_M_in Hopen. subst o'.
    destruct f as [pr|]; cbn [appends_only] in Happ.
    + enter_writeRunHeader Hrun.
      rewrite (Hlook : particles (MkVGrisu _ _ _ _ _ _ _ _ _ pa _) !! _ = None) in Hrun.
      steps Hrun. known_printer Happ Hrun. steps Hrun. run_M_in Hrun. subst o.
      eexists. eexists. split; [reflexivity|]. run_M.
      split; [repeat rewrite <- app_assoc; reflexivity|].
      split; [|repeat split; reflexivity].
      unfold unknown_particle_text. find_token.
    + enter_writeRunHeader Hrun.
      rewrite (Hlook : particles (MkVGrisu _ _ _ _ _ _ _ _ _ pa _) !! _ = None) in Hrun.
      steps Hrun. run_M_in Hrun. subst o.
      eexists. eexists. split; [reflexivity|]. run_M.
      split; [repeat rewrite <- app_assoc; reflexivity|].
      split; [|repeat split; reflexivity].
      unfold unknown_particle_text. find_token.
Qed.

(** C8: looking a code up in the particle map never fails: in a newly
    constructed object the codes 1 and 14 are mapped to 1 and 13, and 99,
    4 and 15 to nothing; and for a primary that is mapped to nothing
    [writeRunHeader] returns, having sent the line that says so. *)
Theorem particle_lookup_never_fails :
  (forall (raw : VGrisu) (iVersion : string) (id : Z) (w : World),
     exists s,
       VGrisu_new raw iVersion id w = Done tt s
       /\ particles (this_ s) !! 1%Z = Some 1%Z
       /\ particles (this_ s) !! 14%Z = Some 13%Z
       /\ particles (this_ s) !! 99%Z = None
       /\ particles (this_ s) !! 4%Z = None
       /\ particles (this_ s) !! 15%Z = None)
  /\ (forall (buf1 : runheader_buffer) (f : option VCORSIKARunheader) (s : State),
        particles (this_ s) !! cxx.to_int (buf1 2%nat) = None ->
        is_open (sink s) = true ->
        appends_only f ->
        exists s' l,
          writeRunHeader buf1 f s = Done tt s'
          /\ sent (sink s') = sent (sink s) ++ l
          /\ Put (flags (sink s)) (precision (sink s)) 0
                 (text unknown_particle_text) ∈ l).
Proof.
  split; [exact constructed_particles|].
  intros buf1 f s Hlook Hopen Happ.
  destruct (writeRunHeader_unknown_run buf1 f s Hlook Hopen Happ)
    as (s' & l & Hrun & Hsent & Hin & _).
  exists s', l. repeat split; assumption.
Qed.


(** ** Runs that agree up to a relation on states *)

Section RelLogic.

Variable Rs : State -> State -> Prop.

Lemma rel_ret {A : Type} (RA : A -> A -> Prop) (a1 a2 : A) :
  RA a1 a2 -> rel Rs RA (mret a1) (mret a2).
Proof. intros Ha s1 s2 Hs. split; assumption. Qed.

Lemma rel_bind {A B : Type} (RA : A -> A -> Prop) (RB : B -> B -> Prop)
    (m1 m2 : M A) (k1 k2 : A -> M B) :
  rel Rs RA m1 m2 ->
  (forall a1 a2, RA a1 a2 -> rel Rs RB (k1 a1) (k2 a2)) ->
  rel Rs RB (mbind k1 m1) (mbind k2 m2).
Proof.
  intros Hm Hk s1 s2 Hs. specialize (Hm s1 s2 Hs).
  unfold mbind, M_bind.
  destruct (m1 s1) as [a1 t1|c1 t1], (m2 s2) as [a2 t2|c2 t2];
    cbn in Hm; try contradiction.
  - destruct Hm as [Ha Ht]. exact (Hk a1 a2 Ha t1 t2 Ht).
  - exact Hm.
Qed.

Lemma rel_exit {A : Type} (RA : A -> A -> Prop) (c : Z) :
  rel Rs RA (exit_ c) (exit_ c).
Proof. intros s1 s2 Hs. split; [reflexivity|exact Hs]. Qed.

Lemma rel_get_this (RA : VGrisu -> VGrisu -> Prop) :
  (forall s1 s2, Rs s1 s2 -> RA (this_ s1) (this_ s2)) ->
  rel Rs RA get_this get_this.
Proof. intros H s1 s2 Hs. split; [apply H|]; exact Hs. Qed.

Lemma rel_get_env (RA : World -> World -> Prop) :
  (forall s1 s2, Rs s1 s2 -> RA (env s1) (env s2)) ->
  rel Rs RA get_env get_env.
Proof. intros H s1 s2 Hs. split; [apply H|]; exact Hs. Qed.

Lemma rel_upd_this (f1 f2 : VGrisu -> VGrisu) :
  (forall s1 s2, Rs s1 s2 ->
     Rs (MkState (f1 (this_ s1)) (env s1)) (MkState (f2 (this_ s2)) (env s2))) ->
  rel Rs eq (upd_this f1) (upd_this f2).
Proof. intros H s1 s2 Hs. split; [reflexivity|]. apply H. exact Hs. Qed.

Lemma rel_upd_env (f1 f2 : World -> World) :
  (forall s1 s2, Rs s1 s2 ->
     Rs (MkState (this_ s1) (f1 (env s1))) (MkState (this_ s2) (f2 (env s2)))) ->
  rel Rs eq (upd_env f1) (upd_env f2).
Proof. intros H s1 s2 Hs. split; [reflexivity|]. apply H. exact Hs. Qed.

(** A computation that returns the same value from every state and
    changes none. *)
Lemma rel_pure {A : Type} (m : M A) (v : A) :
  (forall s, m s = Done v s) -> rel Rs eq m m.
Proof.
  intros H s1 s2 Hs. rewrite (H s1), (H s2). split; [reflexivity|exact Hs].
Qed.

Lemma rel_transformCoord (az x y : R) :
  rel Rs eq (transformCoord az x y) (transformCoord az x y).
Proof.
  destruct (transformCoord_run az x y) as (r & az' & _ & _ & H).
  exact (rel_pure _ _ H).
Qed.

End RelLogic.


(** ** No member function reads [xoff] or [yoff] *)

Lemma same_but_offsets_fields (g1 g2 : VGrisu) :
  same_but_offsets g1 g2 ->
  degrad g1 = degrad g2 /\ fVersion g1 = fVersion g2
  /\ bSTDOUT g1 = bSTDOUT g2 /\ primID g1 = primID g2
  /\ qeff g1 = qeff g2 /\ observation_height g1 = observation_height g2
  /\ atm_id g1 = atm_id g2 /\ particles g1 = particles g2
  /\ of_file g1 = of_file g2.
Proof.
  destruct g1, g2. unfold same_but_offsets. cbn. intros H.
  injection H as -> -> -> -> -> -> -> -> ->. repeat split; reflexivity.
Qed.

Ltac off_side :=
  let g1 := fresh "g" in let g2 := fresh "g" in
  let w1 := fresh "w" in let w2 := fresh "w" in
  let He := fresh "He" in let Hg := fresh "Hg" in
  intros [g1 w1] [g2 w2] [He Hg]; cbn [this_ env] in *; subst w2;
  split; [reflexivity|];
  apply same_but_offsets_fields in Hg;
  destruct Hg as (? & ? & ? & ? & ? & ? & ? & ? & ?);
  destruct g1, g2; cbn [degrad fVersion bSTDOUT primID xoff yoff qeff
                        observation_height atm_id particles of_file] in *;
  subst; reflexivity.

Lemma off_on_cout (f : ostream -> ostream) :
  rel off_rel eq (on_cout f) (on_cout f).
Proof.
  apply rel_upd_env. intros [g1 w1] [g2 w2] [He Hg]. cbn [this_ env] in *.
  subst w2. split; [reflexivity|exact Hg].
Qed.

Lemma off_on_of_file (f : ostream -> ostream) :
  rel off_rel eq (on_of_file f) (on_of_file f).
Proof. apply rel_upd_this. off_side. Qed.

Lemma off_set_xoff (v1 v2 : R) :
  rel off_rel eq (upd_this (set_xoff v1)) (upd_this (set_xoff v2)).
Proof. apply rel_upd_this. off_side. Qed.

Lemma off_set_yoff (v1 v2 : R) :
  rel off_rel eq (upd_this (set_yoff v1)) (upd_this (set_yoff v2)).
Proof. apply rel_upd_this. off_side. Qed.

Lemma off_set_bSTDOUT (v : bool) :
  rel off_rel eq (upd_this (set_bSTDOUT v)) (upd_this (set_bSTDOUT v)).
Proof. apply rel_upd_this. off_side. Qed.

Lemma off_set_particles (m : gmap Z Z) :
  rel off_rel eq (upd_this (set_particles m)) (upd_this (set_particles m)).
Proof. apply rel_upd_this. off_side. Qed.

Lemma off_get_this : rel off_rel same_but_offsets get_this get_this.
Proof. apply rel_get_this. intros s1 s2 [_ H]. exact H. Qed.

Lemma off_get_env : rel off_rel eq get_env get_env.
Proof. apply rel_get_env. intros s1 s2 [H _]. exact H. Qed.

Ltac off_prim :=
  idtac;
  lazymatch goal with
  | |- rel _ _ (on_cout _) _ => apply off_on_cout
  | |- rel _ _ (on_of_file _) _ => apply off_on_of_file
  | |- rel _ _ (upd_this (set_xoff _)) _ => apply off_set_xoff
  | |- rel _ _ (upd_this (set_yoff _)) _ => apply off_set_yoff
  | |- rel _ _ (upd_this (set_bSTDOUT _)) _ => apply off_set_bSTDOUT
  | |- rel _ _ (upd_this (set_particles _)) _ => apply off_set_particles
  | |- rel _ _ get_env _ => apply off_get_env
  | |- rel _ _ (transformCoord _ _ _) _ => apply rel_transformCoord
  | |- rel _ _ (exit_ _) _ => apply rel_exit
  | |- rel _ _ (mret _) _ => apply (rel_ret _ eq); reflexivity
  end.

(** After [g1] and [g2] were read from related states, what the left
    program reads of [g1] is what the right one reads of [g2]. *)
Ltac off_read Hg :=
  apply same_but_offsets_fields in Hg;
  let H1 := fresh in let H2 := fresh in let H3 := fresh in
  let H4 := fresh in let H5 := fresh in let H6 := fresh in
  let H7 := fresh in let H8 := fresh in let H9 := fresh in
  destruct Hg as (H1 & H2 & H3 & H4 & H5 & H6 & H7 & H8 & H9);
  rewrite ?H1, ?H2, ?H3, ?H4, ?H5, ?H6, ?H7, ?H8, ?H9;
  clear H1 H2 H3 H4 H5 H6 H7 H8 H9.

Ltac rel_go prim :=
  cbv beta iota zeta;
  lazymatch goal with
  | |- rel _ _ (mbind _ _) (mbind _ _) =>
      eapply rel_bind;
      [ rel_go prim
      | let a1 := fresh "a" in let a2 := fresh "a" in
        intros a1 a2 ?; subst a2;
        lazymatch type of a1 with
        | (_ * _ * _)%type => destruct a1 as [[? ?] ?]
        | _ => idtac
        end;
        cbv beta iota; rel_go prim ]
  | |- rel _ _ (if negb true then _ else _) _ =>
      rewrite !if_negb_true; rel_go prim
  | |- rel _ _ (if ?b then _ else _) (if ?b then _ else _) =>
      destruct b; rel_go prim
  | |- rel _ _ (match ?o with Some _ => _ | None => _ end)
               (match ?o with Some _ => _ | None => _ end) =>
      destruct o; rel_go prim
  | |- _ => prim
  end.

Lemma off_particles_subscript (k : Z) :
  rel off_rel eq (particles_subscript k) (particles_subscript k).
Proof.
  unfold particles_subscript. eapply rel_bind; [apply off_get_this|].
  intros g1 g2 Hg. off_read Hg.
  destruct (map_subscript k (particles g2)) as [v m].
  rel_go off_prim.
Qed.

Lemma off_writeEvent (array : telescope_array) (more : bool) :
  rel off_rel eq (writeEvent array more) (writeEvent array more).
Proof.
  unfold writeEvent. eapply rel_bind; [apply off_get_this|].
  intros g1 g2 Hg. off_read Hg.
  rel_go off_prim.
Qed.

Lemma off_writePhotons (i_bunch : bunch) (i_tel : Z) :
  rel off_rel eq (writePhotons i_bunch i_tel) (writePhotons i_bunch i_tel).
Proof.
  unfold writePhotons. cbv zeta. eapply rel_bind; [apply rel_transformCoord|].
  intros a1 a2 <-. destruct a1 as [[az x] y]. cbv beta iota.
  eapply rel_bind; [apply off_get_this|].
  intros g1 g2 Hg. off_read Hg.
  rel_go off_prim.
Qed.

Lemma off_of_file_open (ofile : string) :
  rel off_rel eq (of_file_open ofile) (of_file_open ofile).
Proof.
  unfold of_file_open. eapply rel_bind; [apply off_get_this|].
  intros g1 g2 Hg. off_read Hg.
  rel_go off_prim.
Qed.

Ltac off_prim2 :=
  idtac;
  lazymatch goal with
  | |- rel _ _ (particles_subscript _) _ => apply off_particles_subscript
  | |- rel _ _ (of_file_open _) _ => apply off_of_file_open
  | |- _ => off_prim
  end.

Lemma off_writeRunHeader (buf1 : runheader_buffer) (f : option VCORSIKARunheader) :
  rel off_rel eq (writeRunHeader buf1 f) (writeRunHeader buf1 f).
Proof.
  unfold writeRunHeader. eapply rel_bind; [apply off_get_this|].
  intros g1 g2 Hg. off_read Hg.
  rel_go off_prim2.
Qed.

Lemma off_setOutputfile (ofile : string) :
  rel off_rel eq (setOutputfile ofile) (setOutputfile ofile).
Proof. unfold setOutputfile. rel_go off_prim2. Qed.

Lemma off_do_call (c : call) :
  rel off_rel eq (do_call c) (do_call c).
Proof.
  destruct c; cbn [do_call].
  - apply off_setOutputfile.
  - apply off_writeRunHeader.
  - apply off_writeEvent.
  - apply off_writePhotons.
Qed.

(** What [writeEvent] leaves in [xoff] and [yoff], whatever the sink. *)
Lemma writeEvent_offsets (array : telescope_array) (more : bool) (s : State) :
  exists s',
    writeEvent array more s = Done tt s'
    /\ xoff (this_ s') = xcore (shower_sim array)
    /\ yoff (this_ s') = ycore (shower_sim array).
Proof.
  destruct s as [[dg fv bs pid xo yo qe oh aid pa ofl] [co cn at_ calls]].
  destruct bs.
  - destruct co as [[|] fl p wd snt]; destruct more;
      (eexists; split; [run_M; reflexivity|split; reflexivity]).
  - destruct ofl as [[|] fl p wd snt]; destruct more;
      (eexists; split; [run_M; reflexivity|split; reflexivity]).
Qed.

(** C4 (as the code behaves): after [writeEvent], [xoff] and [yoff] hold
    the core position as it was received, before the frame transform; and
    no call on the object reads them: from two states that differ only
    in [xoff] and [yoff], every call ends the same way, with the same
    environment, in objects that again differ at most there. *)
Theorem offsets_hold_received_core_and_are_never_read :
  (forall (array : telescope_array) (more : bool) (s : State),
     exists s',
       writeEvent array more s = Done tt s'
       /\ xoff (this_ s') = xcore (shower_sim array)
       /\ yoff (this_ s') = ycore (shower_sim array))
  /\ (forall (c : call) (s1 s2 : State),
        env s1 = env s2 ->
        same_but_offsets (this_ s1) (this_ s2) ->
        same_outcome_but_offsets (do_call c s1) (do_call c s2)).
Proof.
  split; [exact writeEvent_offsets|].
  intros c s1 s2 He Hg.
  pose proof (off_do_call c s1 s2 (conj He Hg)) as H.
  unfold rel_outcome in H. unfold same_outcome_but_offsets.
  destruct (do_call c s1) as [[] t1|c1 t1], (do_call c s2) as [[] t2|c2 t2];
    try contradiction.
  - destruct H as [_ [H1 H2]]. split; assumption.
  - destruct H as [-> [H1 H2]]. repeat split; assumption.
Qed.


(** ** Selecting the destination *)

Lemma setOutputfile_stdout (s : State) :
  setOutputfile "stdout" s
  = Done tt
      (MkState (set_bSTDOUT true (this_ s))
         (set_cout (set_width 15 (set_precision 4
                      (setf (flags_or ios_fixed ios_right) (cout (env s)))))
                   (env s))).
Proof. destruct s as [g w]. reflexivity. Qed.

Lemma setOutputfile_fails (ofile : string) (s : State) :
  ofile <> "stdout" ->
  negb (is_open (of_file (this_ s))) && can_open (env s) ofile = false ->
  setOutputfile ofile s
  = Exited (-1)
      (MkState (this_ s)
         (set_cout (cout (env s)
                      << text "VGrisu::setOutputfile: error opening outputfile: "
                      << text ofile << endl)
                   (env s))).
Proof.
  intros Hne Hopen. apply String.eqb_neq in Hne.
  destruct s as [g w]. cbn [this_ env] in *.
  unfold setOutputfile. rewrite Hne. rewrite if_negb_false.
  unfold of_file_open.
  unfold mbind, M_bind, get_this, get_env. cbn [this_ env].
  rewrite Hopen. reflexivity.
Qed.

Lemma setOutputfile_opens (ofile : string) (s : State) :
  ofile <> "stdout" ->
  negb (is_open (of_file (this_ s))) && can_open (env s) ofile = true ->
  setOutputfile ofile s
  = Done tt
      (MkState
         (set_of_file
            (Ostream true
               (flags_or (flags (of_file (this_ s))) (flags_or ios_fixed ios_right))
               4 15 [])
            (this_ s))
         (env s)).
Proof.
  intros Hne Hopen. apply String.eqb_neq in Hne.
  destruct s as [g w]. cbn [this_ env] in *.
  unfold setOutputfile. rewrite Hne. rewrite if_negb_false.
  unfold of_file_open.
  unfold mbind, M_bind, get_this, get_env. cbn [this_ env].
  rewrite Hopen. destruct g. reflexivity.
Qed.

(** *** An object that writes to [cout] leaves its file alone *)

Section Console.

Variable L : list token.

Ltac con_side :=
  let g1 := fresh "g" in let w1 := fresh "w" in
  let Hb := fresh "Hb" in let Hl := fresh "Hl" in
  intros [g1 w1] ? [<- [Hb Hl]]; cbn [this_ env] in *;
  split; [reflexivity|]; split;
  [ destruct g1 as [? ? ? ? ? ? ? ? ? ? ?]; exact Hb
  | destruct g1 as [? ? ? ? ? ? ? ? ? ? ?]; exact Hl ].

Lemma con_on_cout (f : ostream -> ostream) :
  rel (console_rel L) eq (on_cout f) (on_cout f).
Proof. apply rel_upd_env. con_side. Qed.

Lemma con_set_xoff (v : R) :
  rel (console_rel L) eq (upd_this (set_xoff v)) (upd_this (set_xoff v)).
Proof. apply rel_upd_this. con_side. Qed.

Lemma con_set_yoff (v : R) :
  rel (console_rel L) eq (upd_this (set_yoff v)) (upd_this (set_yoff v)).
Proof. apply rel_upd_this. con_side. Qed.

Lemma con_set_particles (m : gmap Z Z) :
  rel (console_rel L) eq (upd_this (set_particles m)) (upd_this (set_particles m)).
Proof. apply rel_upd_this. con_side. Qed.

Lemma con_set_bSTDOUT :
  rel (console_rel L) eq (upd_this (set_bSTDOUT true)) (upd_this (set_bSTDOUT true)).
Proof.
  apply rel_upd_this. intros [g1 w1] ? [<- [Hb Hl]]. cbn [this_ env] in *.
  split; [reflexivity|]. split; [reflexivity|].
  destruct g1 as [? ? ? ? ? ? ? ? ? ? ?]; exact Hl.
Qed.

(** Changes of the file stream's format state send nothing. *)
Lemma con_on_of_file_format (f : ostream -> ostream) :
  (forall os, sent (f os) = sent os) ->
  rel (console_rel L) eq (on_of_file f) (on_of_file f).
Proof.
  intros Hf. apply rel_upd_this. intros [g1 w1] ? [<- [Hb Hl]].
  cbn [this_ env] in *. split; [reflexivity|]. destruct g1 as [dg fv bs pid xo yo qe oh aid pa ofl].
  cbn [this_ bSTDOUT of_file set_of_file] in *. split; [exact Hb|].
  rewrite Hf. exact Hl.
Qed.

(** A file that is opened starts empty. *)
Lemma con_on_of_file_empty (f : ostream -> ostream) :
  (forall os, sent (f os) = []) ->
  rel (console_rel L) eq (on_of_file f) (on_of_file f).
Proof.
  intros Hf. apply rel_upd_this. intros [g1 w1] ? [<- [Hb Hl]].
  cbn [this_ env] in *. split; [reflexivity|]. destruct g1 as [dg fv bs pid xo yo qe oh aid pa ofl].
  cbn [this_ bSTDOUT of_file set_of_file] in *. split; [exact Hb|].
  rewrite Hf. intros t Ht. inversion Ht.
Qed.

Lemma con_get_this : rel (console_rel L) reads_console get_this get_this.
Proof.
  apply rel_get_this. intros s1 s2 [<- [Hb _]]. split; [reflexivity|exact Hb].
Qed.

Lemma con_get_env : rel (console_rel L) eq get_env get_env.
Proof. apply rel_get_env. intros s1 s2 [<- _]. reflexivity. Qed.

Ltac con_prim :=
  idtac;
  lazymatch goal with
  | |- rel _ _ (on_cout _) _ => apply con_on_cout
  | |- rel _ _ (on_of_file (setf _)) _ =>
      apply con_on_of_file_format; intros; reflexivity
  | |- rel _ _ (on_of_file (set_precision _)) _ =>
      apply con_on_of_file_format; intros; reflexivity
  | |- rel _ _ (on_of_file (set_width _)) _ =>
      apply con_on_of_file_format; intros; reflexivity
  | |- rel _ _ (on_of_file (fun os => Ostream _ _ _ _ [])) _ =>
      apply con_on_of_file_empty; intros; reflexivity
  | |- rel _ _ (upd_this (set_xoff _)) _ => apply con_set_xoff
  | |- rel _ _ (upd_this (set_yoff _)) _ => apply con_set_yoff
  | |- rel _ _ (upd_this (set_bSTDOUT true)) _ => apply con_set_bSTDOUT
  | |- rel _ _ (upd_this (set_particles _)) _ => apply con_set_particles
  | |- rel _ _ get_env _ => apply con_get_env
  | |- rel _ _ (transformCoord _ _ _) _ => apply rel_transformCoord
  | |- rel _ _ (exit_ _) _ => apply rel_exit
  | |- rel _ _ (mret _) _ => apply (rel_ret _ eq); reflexivity
  end.

Ltac con_read Hg :=
  let Hb := fresh "Hb" in
  destruct Hg as [<- Hb]; rewrite ?Hb, ?if_negb_true; clear Hb.

Lemma con_particles_subscript (k : Z) :
  rel (console_rel L) eq (particles_subscript k) (particles_subscript k).
Proof.
  unfold particles_subscript. eapply rel_bind; [apply con_get_this|].
  intros g1 g2 Hg. con_read Hg.
  destruct (map_subscript k (particles g1)) as [v m].
  rel_go con_prim.
Qed.

Lemma con_of_file_open (ofile : string) :
  rel (console_rel L) eq (of_file_open ofile) (of_file_open ofile).
Proof.
  unfold of_file_open. eapply rel_bind; [apply con_get_this|].
  intros g1 g2 Hg. con_read Hg.
  rel_go con_prim.
Qed.

Ltac con_prim2 :=
  idtac;
  lazymatch goal with
  | |- rel _ _ (particles_subscript _) _ => apply con_particles_subscript
  | |- rel _ _ (of_file_open _) _ => apply con_of_file_open
  | |- _ => con_prim
  end.

Lemma con_writeEvent (array : telescope_array) (more : bool) :
  rel (console_rel L) eq (writeEvent array more) (writeEvent array more).
Proof.
  unfold writeEvent. eapply rel_bind; [apply con_get_this|].
  intros g1 g2 Hg. con_read Hg.
  rel_go con_prim2.
Qed.

Lemma con_writePhotons (i_bunch : bunch) (i_tel : Z) :
  rel (console_rel L) eq (writePhotons i_bunch i_tel) (writePhotons i_bunch i_tel).
Proof.
  unfold writePhotons. cbv zeta. eapply rel_bind; [apply rel_transformCoord|].
  intros a1 a2 <-. destruct a1 as [[az x] y]. cbv beta iota.
  eapply rel_bind; [apply con_get_this|].
  intros g1 g2 Hg. con_read Hg.
  rel_go con_prim2.
Qed.

Lemma con_writeRunHeader (buf1 : runheader_buffer) (f : option VCORSIKARunheader) :
  rel (console_rel L) eq (writeRunHeader buf1 f) (writeRunHeader buf1 f).
Proof.
  unfold writeRunHeader. eapply rel_bind; [apply con_get_this|].
  intros g1 g2 Hg. con_read Hg.
  rel_go con_prim2.
Qed.

Lemma con_setOutputfile (ofile : string) :
  rel (console_rel L) eq (setOutputfile ofile) (setOutputfile ofile).
Proof. unfold setOutputfile. rel_go con_prim2. Qed.

Lemma con_do_calls (cs : list call) :
  rel (console_rel L) eq (do_calls cs) (do_calls cs).
Proof.
  induction cs as [|c cs IH]; cbn [do_calls].
  - apply (rel_ret _ eq). reflexivity.
  - eapply rel_bind; [|intros ? ? _; exact IH].
    destruct c; cbn [do_call].
    + apply con_setOutputfile.
    + apply con_writeRunHeader.
    + apply con_writeEvent.
    + apply con_writePhotons.
Qed.

End Console.

(** C7: a path other than "stdout" that cannot be opened makes
    [setOutputfile] write the diagnostic and the path to [cout] and leave
    through [exit( -1 )], the object and its file untouched; with
    "stdout" the call returns, the object writes to [cout] from then on,
    and whatever is called afterwards sends nothing to the file. *)
Theorem setOutputfile_selects_the_destination (ofile : string) (s : State) :
  (ofile <> "stdout" ->
   negb (is_open (of_file (this_ s))) && can_open (env s) ofile = false ->
   setOutputfile ofile s
   = Exited (-1)
       (MkState (this_ s)
          (set_cout (cout (env s)
                       << text "VGrisu::setOutputfile: error opening outputfile: "
                       << text ofile << endl)
                    (env s)))
   /\ (-1 <> 0)%Z)
  /\ (ofile = "stdout" ->
      exists s1,
        setOutputfile ofile s = Done tt s1
        /\ bSTDOUT (this_ s1) = true
        /\ of_file (this_ s1) = of_file (this_ s)
        /\ forall cs : list call,
             let s2 := final_state (do_calls cs s1) in
             bSTDOUT (this_ s2) = true
             /\ sink s2 = cout (env s2)
             /\ forall t, t ∈ sent (of_file (this_ s2))
                          -> t ∈ sent (of_file (this_ s))).
Proof.
  split.
  - intros Hne Hopen. split; [apply setOutputfile_fails; assumption|lia].
  - intros ->. eexists. split; [apply setOutputfile_stdout|].
    destruct s as [[dg fv bs pid xo yo qe oh aid pa ofl] w].
    cbn [this_ env bSTDOUT of_file set_bSTDOUT].
    split; [reflexivity|]. split; [reflexivity|].
    intros cs. cbv zeta.
    match goal with |- context [do_calls cs ?s1] =>
      pose proof (con_do_calls (sent ofl) cs s1 s1) as H
    end.
    unfold rel_outcome in H.
    match type of H with ?P -> _ =>
      assert (HP : P) by (split; [reflexivity|split; [reflexivity|intros t Ht; exact Ht]])
    end.
    specialize (H HP). clear HP.
    destruct (do_calls cs _) as [[] t1|c1 t1]; cbn [final_state].
    + destruct H as [_ [_ [Hb Hl]]]. unfold sink. rewrite Hb.
      repeat split; [exact Hl].
    + destruct H as [_ [_ [Hb Hl]]]. unfold sink. rewrite Hb.
      repeat split; [exact Hl].
Qed.


(** ** The same header on both destinations *)

Lemma get_differs (n : nat) (s1 s2 : string) :
  String.get n s1 <> String.get n s2 -> s1 <> s2.
Proof. intros H E. apply H. rewrite E. reflexivity. Qed.

End Properties.

(** ** The examples *)

Section ExampleRuns.

#[local] Existing Instance Examples.null_atmosphere.

Lemma console_object_eq :
  Examples.console_object
  = MkState
      (MkVGrisu (45 / atan 1) "v1" true 0 0 0 1 100 (-1)
         (<[13%Z:=14%Z]> (<[14%Z:=13%Z]> (<[16%Z:=12%Z]> (<[10%Z:=11%Z]>
          (<[12%Z:=10%Z]> (<[11%Z:=9%Z]> (<[9%Z:=8%Z]> (<[8%Z:=7%Z]>
          (<[7%Z:=6%Z]> (<[6%Z:=5%Z]> (<[5%Z:=4%Z]> (<[3%Z:=3%Z]>
          (<[2%Z:=2%Z]> (<[1%Z:=1%Z]> ∅))))))))))))))
         closed_stream)
      (MkWorld (Ostream true (Fmtflags true true false) 4 15 [])
               (fun path => negb (String.eqb path "/")) tt []).
Proof.
  unfold Examples.console_object, session. rewrite VGrisu_new_run.
  cbn [do_calls do_call]. unfold mbind, M_bind. rewrite setOutputfile_stdout.
  reflexivity.
Qed.

Lemma file_object_eq :
  Examples.file_object
  = MkState
      (MkVGrisu (45 / atan 1) "v1" false 0 0 0 1 100 (-1)
         (<[13%Z:=14%Z]> (<[14%Z:=13%Z]> (<[16%Z:=12%Z]> (<[10%Z:=11%Z]>
          (<[12%Z:=10%Z]> (<[11%Z:=9%Z]> (<[9%Z:=8%Z]> (<[8%Z:=7%Z]>
          (<[7%Z:=6%Z]> (<[6%Z:=5%Z]> (<[5%Z:=4%Z]> (<[3%Z:=3%Z]>
          (<[2%Z:=2%Z]> (<[1%Z:=1%Z]> ∅))))))))))))))
         (Ostream true (Fmtflags true true false) 4 15 []))
      (MkWorld (Ostream true no_flags 6 0 [])
               (fun path => negb (String.eqb path "/")) tt []).
Proof.
  unfold Examples.file_object, session. rewrite VGrisu_new_run.
  cbn [do_calls do_call]. unfold mbind, M_bind.
  rewrite setOutputfile_opens; [reflexivity|discriminate|reflexivity].
Qed.

Lemma zero_header_primary_unknown :
  (<[13%Z:=14%Z]> (<[14%Z:=13%Z]> (<[16%Z:=12%Z]> (<[10%Z:=11%Z]>
   (<[12%Z:=10%Z]> (<[11%Z:=9%Z]> (<[9%Z:=8%Z]> (<[8%Z:=7%Z]>
   (<[7%Z:=6%Z]> (<[6%Z:=5%Z]> (<[5%Z:=4%Z]> (<[3%Z:=3%Z]>
   (<[2%Z:=2%Z]> (<[1%Z:=1%Z]> (∅ : gmap Z Z)))))))))))))))
    !! cxx.to_int (Examples.zero_header 2%nat) = None.
Proof.
  unfold Examples.zero_header. rewrite (to_int_IZR 0). reflexivity.
Qed.

(** C3 (as the code behaves): for the run header of a fresh object the
    text sent to [cout] differs from the text sent to the file, whatever
    the formatting of floating values: after the date the console has
    " C)" where the file has ")". *)
Theorem writeRunHeader_console_differs_from_file
    (num_put : fmtflags -> nat -> R -> string) :
  render num_put
    (sent (sink (final_state
       (writeRunHeader Examples.zero_header None Examples.console_object))))
  <> render num_put
       (sent (sink (final_state
          (writeRunHeader Examples.zero_header None Examples.file_object)))).
Proof.
  rewrite console_object_eq, file_object_eq.
  remember (writeRunHeader _ _ (MkState (MkVGrisu _ _ true _ _ _ _ _ _ _ _) _))
    as o1 eqn:H1.
  remember (writeRunHeader _ _ (MkState (MkVGrisu _ _ false _ _ _ _ _ _ _ _) _))
    as o2 eqn:H2.
  enter_writeRunHeader H1.
  rewrite (zero_header_primary_unknown
           : particles (MkVGrisu _ _ _ _ _ _ _ _ _ _ _) !! _ = None) in H1.
  steps H1. run_M_in H1. subst o1.
  enter_writeRunHeader H2.
  rewrite (zero_header_primary_unknown
           : particles (MkVGrisu _ _ _ _ _ _ _ _ _ _ _) !! _ = None) in H2.
  steps H2. run_M_in H2. subst o2.
  run_M. cbn [app].
  cbv beta delta [Examples.zero_header]. rewrite (to_int_IZR 0).
  apply (get_differs 109). lazy. discriminate.
Qed.

(** The shower of the examples, written by the console object. *)
Lemma writeEvent_snaps_direction_cosines_witness :
  is_open (sink Examples.console_object) = true
  /\ exists s' l,
       writeEvent Examples.shower_1_2 false Examples.console_object = Done tt s'
       /\ sent (sink s') = sent (sink Examples.console_object) ++ l.
Proof.
  assert (Hopen : is_open (sink Examples.console_object) = true)
    by (rewrite console_object_eq; reflexivity).
  split; [exact Hopen|].
  destruct (writeEvent_snaps_direction_cosines
              Examples.shower_1_2 false Examples.console_object Hopen)
    as (az' & dcos & dsin & rest & s' & _ & Hrun & Hsent & _).
  exists s'. eexists. split; [exact Hrun|exact Hsent].
Defined.

(** The photon of the examples, written by the console object. *)
Lemma writePhotons_line_and_format_witness :
  is_open (sink Examples.console_object) = true
  /\ exists s',
       writePhotons Examples.photon_0 0 Examples.console_object = Done tt s'
       /\ showpos (flags (sink s')) = false
       /\ precision (sink s') = 7%nat.
Proof.
  assert (Hopen : is_open (sink Examples.console_object) = true)
    by (rewrite console_object_eq; reflexivity).
  split; [exact Hopen|].
  destruct (writePhotons_line_and_format
              Examples.photon_0 0 Examples.console_object Hopen)
    as (az' & s' & _ & Hrun & _ & _ & Hsp & _ & _ & Hp & _).
  exists s'. repeat split; assumption.
Defined.

(** C10, as stated, fails on the first photon written after
    [setOutputfile]: the precision of the sink is 4 before the call and 7
    after it, and the pending width 15 before and 0 after. *)
Lemma writePhotons_changes_the_format_state :
  let s := Examples.console_object in
  let s' := final_state (writePhotons Examples.photon_0 0 s) in
  (flags (sink s'), precision (sink s'), width (sink s'))
  <> (flags (sink s), precision (sink s), width (sink s)).
Proof.
  cbv zeta.
  assert (Hopen : is_open (sink Examples.console_object) = true)
    by (rewrite console_object_eq; reflexivity).
  destruct (writePhotons_run Examples.photon_0 0 Examples.console_object Hopen)
    as (az' & s' & _ & Hrun & _ & _ & Hp & _).
  rewrite Hrun. cbn [final_state]. rewrite Hp.
  rewrite console_object_eq. cbn [sink this_ env bSTDOUT cout flags precision width].
  intros H. discriminate H.
Qed.

(** C4, as stated, fails for the shower of the examples, whose core is at
    (1, 2): the transformed core is (-2, -1), and [writeEvent] leaves
    (1, 2) in [xoff] and [yoff]. *)
Lemma writeEvent_offsets_are_not_the_transformed_core :
  let s := Examples.console_object in
  let sh := shower_sim Examples.shower_1_2 in
  exists az' s',
    transformCoord (azimuth sh / degrad (this_ s)) (xcore sh) (ycore sh) s
    = Done (az', -2, -1) s
    /\ writeEvent Examples.shower_1_2 false s = Done tt s'
    /\ xoff (this_ s') <> -2
    /\ yoff (this_ s') <> -1.
Proof.
  cbv zeta.
  destruct (transformCoord_run
              (azimuth (shower_sim Examples.shower_1_2)
               / degrad (this_ Examples.console_object))
              (xcore (shower_sim Examples.shower_1_2))
              (ycore (shower_sim Examples.shower_1_2)))
    as (r & az' & _ & _ & Htc).
  destruct (writeEvent_offsets Examples.shower_1_2 false Examples.console_object)
    as (s' & Hrun & Hx & Hy).
  exists az', s'. split; [apply Htc|]. split; [exact Hrun|].
  rewrite Hx, Hy. cbn [Examples.shower_1_2 shower_sim xcore ycore]. split; lra.
Qed.

(** Two objects that differ in [xoff] and [yoff] only, asked for the
    same shower. *)
Lemma offsets_hold_received_core_and_are_never_read_witness :
  let s1 := Examples.console_object in
  let s2 := MkState (set_xoff 5 (set_yoff 7 (this_ s1))) (env s1) in
  env s1 = env s2
  /\ same_but_offsets (this_ s1) (this_ s2)
  /\ same_outcome_but_offsets
       (do_call (CallWriteEvent Examples.shower_1_2 false) s1)
       (do_call (CallWriteEvent Examples.shower_1_2 false) s2).
Proof.
  cbv zeta.
  assert (He : forall s : State,
             env s = env (MkState (set_xoff 5 (set_yoff 7 (this_ s))) (env s)))
    by (intros [g w]; reflexivity).
  assert (Hg : forall s : State,
             same_but_offsets (this_ s)
               (this_ (MkState (set_xoff 5 (set_yoff 7 (this_ s))) (env s))))
    by (intros [[dg fv bs pid xo yo qe oh aid pa ofl] w]; reflexivity).
  split; [apply He|]. split; [apply Hg|].
  exact (proj2 offsets_hold_received_core_and_are_never_read _ _ _
           (He Examples.console_object) (Hg Examples.console_object)).
Defined.

(** A path that the file system refuses, and "stdout". *)
Lemma setOutputfile_selects_the_destination_witness :
  ("/" <> "stdout"
   /\ negb (is_open (of_file (this_ Examples.console_object)))
      && can_open (env Examples.console_object) "/" = false
   /\ exists s', setOutputfile "/" Examples.console_object = Exited (-1) s')
  /\ exists s1,
       setOutputfile "stdout" Examples.console_object = Done tt s1
       /\ bSTDOUT (this_ s1) = true.
Proof.
  assert (Hne : "/" <> "stdout") by discriminate.
  assert (Hop : negb (is_open (of_file (this_ Examples.console_object)))
                && can_open (env Examples.console_object) "/" = false)
    by (rewrite console_object_eq; reflexivity).
  split.
  - split; [exact Hne|]. split; [exact Hop|].
    eexists.
    exact (proj1 (proj1 (setOutputfile_selects_the_destination
                           "/" Examples.console_object) Hne Hop)).
  - destruct (proj2 (setOutputfile_selects_the_destination
                       "stdout" Examples.console_object) eq_refl)
      as (s1 & Hrun & Hb & _).
    exists s1. split; assumption.
Defined.

(** The header of the examples, whose primary has code 0. *)
Lemma particle_lookup_never_fails_witness :
  particles (this_ Examples.console_object)
    !! cxx.to_int (Examples.zero_header 2%nat) = None
  /\ is_open (sink Examples.console_object) = true
  /\ appends_only None
  /\ exists s',
       writeRunHeader Examples.zero_header None Examples.console_object
       = Done tt s'.
Proof.
  assert (Hlook : particles (this_ Examples.console_object)
                    !! cxx.to_int (Examples.zero_header 2%nat) = None)
    by (rewrite console_object_eq; exact zero_header_primary_unknown).
  assert (Hopen : is_open (sink Examples.console_object) = true)
    by (rewrite console_object_eq; reflexivity).
  split; [exact Hlook|]. split; [exact Hopen|]. split; [exact I|].
  destruct (proj2 particle_lookup_never_fails
              Examples.zero_header None Examples.console_object
              Hlook Hopen I) as (s' & l & Hrun & _).
  exists s'. exact Hrun.
Defined.

(** C9, as stated, fails for the identifier 0 and an atmosphere library
    that leaves its arguments alone: the identifier is not negative,
    [atmset_] has been called, and the observation height is 100. *)
Lemma constructor_height_is_100_for_identifier_0 :
  exists s,
    VGrisu_new Examples.raw_object "v1" 0 Examples.fresh_world = Done tt s
    /\ observation_height (this_ s) = 100
    /\ atmset_calls (env s) = [(0%Z, 100)]
    /\ ~ (0 < 0)%Z.
Proof.
  eexists. split; [apply VGrisu_new_run|].
  split; [reflexivity|]. split; [reflexivity|]. lia.
Qed.

(** Construction with the identifiers -1 and 0. *)
Lemma constructor_defaults_witness :
  (exists s,
     VGrisu_new Examples.raw_object "v1" (-1) Examples.fresh_world = Done tt s
     /\ observation_height (this_ s) = 100
     /\ atmset_calls (env s) = [])
  /\ (exists s,
        VGrisu_new Examples.raw_object "v1" 0 Examples.fresh_world = Done tt s
        /\ atmset_calls (env s) = [(0%Z, 100)]).
Proof.
  split.
  - destruct (constructor_defaults Examples.raw_object "v1" (-1) Examples.fresh_world)
      as (s & Hrun & _ & Hneg & _).
    destruct Hneg as (Hh & Hc & _); [lia|].
    exists s. repeat split; assumption.
  - destruct (constructor_defaults Examples.raw_object "v1" 0 Examples.fresh_world)
      as (s & Hrun & _ & _ & Hpos).
    destruct Hpos as (Hc & _); [lia|].
    exists s. split; assumption.
Defined.

End ExampleRuns.


(** ** [redang] on IEEE-754 values *)

(** At the [float] -10, [redang] evaluated with the rounding of every
    operation returns the [float] -10, which is negative. *)
Lemma redang_binary32_minus_ten :
  Binary32.redang (Binary32.float_of_int (-10))
  = Some (Binary32.float_of_int (-10))
  /\ Binary32.is_negative (Binary32.float_of_int (-10)) = true.
Proof. split; vm_compute; reflexivity. Qed.


(** * Further properties *)

(** ** Whole turns *)



(** ** The value of [redang] *)



Section Further.

Context `{Atm : IACT}.

Lemma redang_returns_its_value (a : R) (s : State) :
  redang a s = Done (redang_value a) s.
Proof. apply redang_run. Qed.

Lemma transformCoord_returns (az x y : R) (s : State) :
  transformCoord az x y s
  = Done (redang_value (1.5 * PI - redang_value az), - y, - x) s.
Proof.
  unfold transformCoord, mbind, M_bind. rewrite redang_returns_its_value.
  unfold cxx.M_PI. rewrite redang_returns_its_value. unfold mret, M_ret.
  do 2 f_equal; try f_equal; lra.
Qed.


End Further.

Section Showers.

Context `{Atm : IACT}.

(** ** What [writeEvent] sends *)

(** [writeEvent] on an object whose sink takes output, with the azimuth
    as [transformCoord] leaves it. *)
Lemma writeEvent_sends (array : telescope_array) (more : bool) (s : State) :
  is_open (sink s) = true ->
  let sh := shower_sim array in
  let ze := (90 - altitude sh) / degrad (this_ s) in
  let az' := redang_value (1.5 * PI - redang_value (azimuth sh / degrad (this_ s))) in
  exists s',
    writeEvent array more s = Done tt s'
    /\ sent (sink s')
       = sent (sink s)
         ++ shower_line (flags (sink s)) (precision (sink s)) (width (sink s))
              (energy sh) (- ycore sh) (- xcore sh)
              (if Rlt_dec (Rabs (sin ze * cos az')) 1e-8
               then 0 else sin ze * cos az')
              (if Rlt_dec (Rabs (sin ze * sin az')) 1e-8
               then 0 else sin ze * sin az')
              (firstint sh)
         ++ (if more
             then corsika_line (flags (sink s)) (firstint sh)
                    (thickx_ (100 * firstint sh) (atm (env s)) / cos ze)
                    (shower_id sh)
             else [])
    /\ flags (sink s') = flags (sink s)
    /\ precision (sink s') = 7%nat
    /\ width (sink s') = 0%nat
    /\ is_open (sink s') = true
    /\ bSTDOUT (this_ s') = bSTDOUT (this_ s).
Proof.
  intros Hopen sh ze az'.
  destruct (writeEvent_run array more s Hopen)
    as (az1 & dcos & dsin & s' & Htc & Hrun & C1 & C2 & S1 & S2 & Hsent
        & Hfl & Hp & Hw & Ho & _ & _ & Hb).
  fold sh in Htc, C1, C2, S1, S2, Hsent. fold ze in C1, C2, S1, S2, Hsent.
  specialize (Htc s). rewrite transformCoord_returns in Htc.
  injection Htc as Haz. fold az' in Haz. subst az1.
  exists s'. split; [exact Hrun|].
  split; [|repeat split; assumption].
  rewrite Hsent. do 3 f_equal.
  - destruct (Rlt_dec (Rabs (sin ze * cos az')) 1e-8) as [H|H];
      [apply C1|apply C2]; exact H.
  - destruct (Rlt_dec (Rabs (sin ze * sin az')) 1e-8) as [H|H];
      [apply S1|apply S2]; exact H.
Qed.

(** X6: A shower from the zenith (altitude 90 degrees) has both direction
    fields 0, whatever its azimuth. *)
Theorem writeEvent_vertical_shower
    (array : telescope_array) (more : bool) (s : State) :
  is_open (sink s) = true ->
  altitude (shower_sim array) = 90 ->
  let sh := shower_sim array in
  exists rest s',
    writeEvent array more s = Done tt s'
    /\ sent (sink s')
       = sent (sink s)
         ++ shower_line (flags (sink s)) (precision (sink s)) (width (sink s))
              (energy sh) (- ycore sh) (- xcore sh) 0 0 (firstint sh)
         ++ rest.
Proof.
  intros Hopen Halt sh.
  pose proof (writeEvent_sends array more s Hopen) as H. cbv zeta in H.
  destruct H as (s' & Hrun & Hsent & _). subst sh.
  rewrite Halt in Hsent.
  replace ((90 - 90) / degrad (this_ s)) with 0 in Hsent
    by (unfold Rdiv; ring).
  rewrite sin_0, !Rmult_0_l, Rabs_R0 in Hsent.
  destruct (Rlt_dec 0 1e-8) as [_|H]; [|lra].
  eexists. exists s'. split; [exact Hrun|exact Hsent].
Qed.

End Showers.

(** ** The text of the records *)

Lemma string_app_assoc (a b c : string) : (a +:+ b) +:+ c = a +:+ (b +:+ c).
Proof.
  induction a as [|ch a IH]; [reflexivity|].
  change (String ch ((a +:+ b) +:+ c) = String ch (a +:+ (b +:+ c))).
  f_equal. exact IH.
Qed.

Lemma render_app (num_put : fmtflags -> nat -> R -> string) (l1 l2 : list token) :
  render num_put (l1 ++ l2) = render num_put l1 +:+ render num_put l2.
Proof.
  induction l1 as [|t l1 IH]; cbn [app render].
  - reflexivity.
  - rewrite IH. symmetry. apply string_app_assoc.
Qed.

Lemma pad_0 (s : string) : pad 0 s = s.
Proof. reflexivity. Qed.

Lemma shower_line_text (num_put : fmtflags -> nat -> R -> string)
    (fl : fmtflags) (p w : nat) (e x y dcos dsin fi : R) :
  render num_put (shower_line fl p w e x y dcos dsin fi)
  = pad w "S"
    +:+ " " +:+ num_put fl 7%nat e
    +:+ " " +:+ num_put fl 7%nat x
    +:+ " " +:+ num_put fl 7%nat y
    +:+ " " +:+ num_put fl 7%nat dcos
    +:+ " " +:+ num_put fl 7%nat dsin
    +:+ " " +:+ num_put fl 7%nat fi
    +:+ " -1 -1 -1" +:+ nl.
Proof.
  unfold shower_line. cbn [render render_token render_value].
  rewrite !pad_0. destruct (showpos fl); reflexivity.
Qed.

Lemma corsika_line_text (num_put : fmtflags -> nat -> R -> string)
    (fl : fmtflags) (fi thick : R) (id : Z) :
  render num_put (corsika_line fl fi thick id)
  = "C " +:+ num_put fl 7%nat fi +:+ " " +:+ num_put fl 7%nat thick +:+ " "
    +:+ (if showpos fl then signed id else pretty id) +:+ nl.
Proof.
  unfold corsika_line, signed. cbn [render render_token render_value].
  rewrite !pad_0. destruct (showpos fl); reflexivity.
Qed.



Section Texts.

Context `{Atm : IACT}.

Variable num_put : fmtflags -> nat -> R -> string.



(** X10: With [printMoreInfo], [writeEvent] sends what it sends without, and
    then one line more: "C ", the height of the first interaction, the
    thickness [thickx_] gives for 100 times that height divided by the
    cosine of the zenith, and the shower number. *)
Theorem writeEvent_more_info (array : telescope_array) (s : State) :
  is_open (sink s) = true ->
  let sh := shower_sim array in
  let ze := (90 - altitude sh) / degrad (this_ s) in
  let fl := flags (sink s) in
  exists s0 s1,
    writeEvent array false s = Done tt s0
    /\ writeEvent array true s = Done tt s1
    /\ sent (sink s1)
       = sent (sink s0)
         ++ corsika_line fl (firstint sh)
              (thickx_ (100 * firstint sh) (atm (env s)) / cos ze)
              (shower_id sh)
    /\ render num_put (sent (sink s1))
       = render num_put (sent (sink s0))
         +:+ "C " +:+ num_put fl 7%nat (firstint sh)
         +:+ " " +:+ num_put fl 7%nat
                       (thickx_ (100 * firstint sh) (atm (env s)) / cos ze)
         +:+ " " +:+ (if showpos fl then signed (shower_id sh)
                      else pretty (shower_id sh))
         +:+ nl.
Proof.
  intros Hopen sh ze fl.
  pose proof (writeEvent_sends array false s Hopen) as H0. cbv zeta in H0.
  destruct H0 as (s0 & Hrun0 & Hsent0 & _).
  pose proof (writeEvent_sends array true s Hopen) as H1. cbv zeta in H1.
  destruct H1 as (s1 & Hrun1 & Hsent1 & _).
  rewrite app_nil_r in Hsent0.
  exists s0, s1. split; [exact Hrun0|]. split; [exact Hrun1|].
  assert (E : sent (sink s1)
              = sent (sink s0)
                ++ corsika_line fl (firstint sh)
                     (thickx_ (100 * firstint sh) (atm (env s)) / cos ze)
                     (shower_id sh)).
  { rewrite Hsent1, Hsent0, app_assoc. reflexivity. }
  split; [exact E|].
  rewrite E, render_app, corsika_line_text. reflexivity.
Qed.

End Texts.

Section Destinations.

Context `{Atm : IACT}.

(** ** The same records on both destinations *)

(** X11: The run header apart, the two branches of the write calls agree: an
    object that writes to [cout] and one that writes to its file, with
    the same [degrad], atmosphere and format state of the stream, send
    the same tokens for a shower and for a photon. *)
Theorem records_same_on_both_destinations
    (array : telescope_array) (more : bool) (i_bunch : bunch) (i_tel : Z)
    (s1 s2 : State) :
  bSTDOUT (this_ s1) = true ->
  bSTDOUT (this_ s2) = false ->
  is_open (cout (env s1)) = true ->
  is_open (of_file (this_ s2)) = true ->
  degrad (this_ s1) = degrad (this_ s2) ->
  atm (env s1) = atm (env s2) ->
  flags (cout (env s1)) = flags (of_file (this_ s2)) ->
  precision (cout (env s1)) = precision (of_file (this_ s2)) ->
  width (cout (env s1)) = width (of_file (this_ s2)) ->
  (exists l s1' s2',
     writeEvent array more s1 = Done tt s1'
     /\ writeEvent array more s2 = Done tt s2'
     /\ sent (cout (env s1')) = sent (cout (env s1)) ++ l
     /\ sent (of_file (this_ s2')) = sent (of_file (this_ s2)) ++ l)
  /\ (exists l s1' s2',
        writePhotons i_bunch i_tel s1 = Done tt s1'
        /\ writePhotons i_bunch i_tel s2 = Done tt s2'
        /\ sent (cout (env s1')) = sent (cout (env s1)) ++ l
        /\ sent (of_file (this_ s2')) = sent (of_file (this_ s2)) ++ l).
Proof.
  intros Hb1 Hb2 Ho1 Ho2 Hdg Hatm Hfl Hp Hw.
  assert (Hs1 : sink s1 = cout (env s1)) by (unfold sink; rewrite Hb1; reflexivity).
  assert (Hs2 : sink s2 = of_file (this_ s2)) by (unfold sink; rewrite Hb2; reflexivity).
  split.
  - pose proof (writeEvent_sends array more s1) as H1.
    pose proof (writeEvent_sends array more s2) as H2.
    cbv zeta in H1, H2. rewrite Hs1 in H1. rewrite Hs2 in H2.
    destruct (H1 Ho1) as (s1' & Hrun1 & Hsent1 & _ & _ & _ & _ & Hb1').
    destruct (H2 Ho2) as (s2' & Hrun2 & Hsent2 & _ & _ & _ & _ & Hb2').
    assert (Hs1' : sink s1' = cout (env s1'))
      by (unfold sink; rewrite Hb1', Hb1; reflexivity).
    assert (Hs2' : sink s2' = of_file (this_ s2'))
      by (unfold sink; rewrite Hb2', Hb2; reflexivity).
    rewrite Hs1' in Hsent1. rewrite Hs2' in Hsent2.
    rewrite Hdg, Hatm, Hfl, Hp, Hw in Hsent1.
    eexists. exists s1', s2'.
    split; [exact Hrun1|]. split; [exact Hrun2|].
    split; [exact Hsent1|exact Hsent2].
  - pose proof (writePhotons_run i_bunch i_tel s1) as H1.
    pose proof (writePhotons_run i_bunch i_tel s2) as H2.
    cbv zeta in H1, H2. rewrite Hs1 in H1. rewrite Hs2 in H2.
    destruct (H1 Ho1) as (az1 & s1' & Htc1 & Hrun1 & Hsent1 & _ & _ & _ & _ & Hb1').
    destruct (H2 Ho2) as (az2 & s2' & Htc2 & Hrun2 & Hsent2 & _ & _ & _ & _ & Hb2').
    specialize (Htc1 s1). specialize (Htc2 s1). rewrite Htc1 in Htc2.
    injection Htc2 as Haz. subst az2.
    assert (Hs1' : sink s1' = cout (env s1'))
      by (unfold sink; rewrite Hb1', Hb1; reflexivity).
    assert (Hs2' : sink s2' = of_file (this_ s2'))
      by (unfold sink; rewrite Hb2', Hb2; reflexivity).
    rewrite Hs1' in Hsent1. rewrite Hs2' in Hsent2.
    rewrite Hfl, Hp, Hw in Hsent1.
    eexists. exists s1', s2'.
    split; [exact Hrun1|]. split; [exact Hrun2|].
    split; [exact Hsent1|exact Hsent2].
Qed.

(** ** Selecting a file *)

(** X12: A path that can be created, on an object without a file: the call
    returns, the file is open and empty, its stream is set to fixed
    notation, right alignment, precision 4 and a pending width of 15;
    [cout] and the rest of the object are as they were. In particular
    [bSTDOUT] is not reset: an object that writes to [cout] goes on
    doing so. *)
Theorem setOutputfile_opens_the_file (ofile : string) (s : State) :
  ofile <> "stdout" ->
  is_open (of_file (this_ s)) = false ->
  can_open (env s) ofile = true ->
  exists s',
    setOutputfile ofile s = Done tt s'
    /\ of_file (this_ s')
       = Ostream true
           (flags_or (flags (of_file (this_ s))) (flags_or ios_fixed ios_right))
           4 15 []
    /\ this_ s' = set_of_file (of_file (this_ s')) (this_ s)
    /\ bSTDOUT (this_ s') = bSTDOUT (this_ s)
    /\ env s' = env s.
Proof.
  intros Hne Hclosed Hcan.
  eexists. split.
  - apply setOutputfile_opens; [exact Hne|]. rewrite Hclosed, Hcan. reflexivity.
  - destruct s as [[dg fv bs pid xo yo qe oh aid pa ofl] w].
    repeat split; reflexivity.
Qed.

(** X13: Once the object has a file, selecting another file ends the
    process: whatever the second path, [setOutputfile] writes the
    diagnostic to [cout] and leaves through [exit( -1 )], the first file
    as it was. *)
Theorem setOutputfile_second_file_exits (ofile1 ofile2 : string) (s : State) :
  ofile1 <> "stdout" ->
  ofile2 <> "stdout" ->
  is_open (of_file (this_ s)) = false ->
  can_open (env s) ofile1 = true ->
  exists s1 s2,
    setOutputfile ofile1 s = Done tt s1
    /\ setOutputfile ofile2 s1 = Exited (-1) s2
    /\ this_ s2 = this_ s1
    /\ env s2
       = set_cout (cout (env s)
                     << text "VGrisu::setOutputfile: error opening outputfile: "
                     << text ofile2 << endl)
                  (env s).
Proof.
  intros Hne1 Hne2 Hclosed Hcan.
  eexists. eexists. split.
  - apply setOutputfile_opens; [exact Hne1|]. rewrite Hclosed, Hcan. reflexivity.
  - split.
    + apply setOutputfile_fails; [exact Hne2|].
      destruct s as [[dg fv bs pid xo yo qe oh aid pa ofl] w]. reflexivity.
    + destruct s as [[dg fv bs pid xo yo qe oh aid pa ofl] w].
      split; reflexivity.
Qed.

(** ** Writing before a destination is selected *)

(** X14: A newly constructed object has no destination: what [writeEvent]
    and [writePhotons] write before [setOutputfile] is called is
    dropped, the calls return, and neither the file nor [cout] receives
    anything. *)
Theorem writes_before_setOutputfile_are_dropped
    (raw : VGrisu) (iVersion : string) (id : Z) (w : World)
    (array : telescope_array) (more : bool) (i_bunch : bunch) (i_tel : Z) :
  exists s s1 s2,
    VGrisu_new raw iVersion id w = Done tt s
    /\ writeEvent array more s = Done tt s1
    /\ writePhotons i_bunch i_tel s1 = Done tt s2
    /\ sent (of_file (this_ s2)) = []
    /\ is_open (of_file (this_ s2)) = false
    /\ sent (cout (env s2)) = sent (cout w).
Proof.
  rewrite VGrisu_new_run.
  destruct w as [co cn at_ calls].
  destruct (0 <=? id)%Z; destruct more.
  all: eexists; eexists; eexists.
  all: split; [reflexivity|].
  all: split; [run_M; reflexivity|].
  all: split; [run_M; reflexivity|].
  all: repeat split; reflexivity.
Qed.

End Destinations.

Section FirstRecord.

Context `{Atm : IACT}.

(** The format state of the destination [setOutputfile] has selected
    on an object that had none. *)
Lemma setOutputfile_format (ofile : string) (s s1 : State) :
  bSTDOUT (this_ s) = false ->
  setOutputfile ofile s = Done tt s1 ->
  width (sink s1) = 15%nat
  /\ precision (sink s1) = 4%nat
  /\ fixed (flags (sink s1)) = true
  /\ right (flags (sink s1)) = true.
Proof.
  intros Hb Hrun.
  destruct (String.eqb_spec ofile "stdout") as [->|Hne].
  - rewrite setOutputfile_stdout in Hrun. injection Hrun as <-.
    destruct s as [[dg fv bs pid xo yo qe oh aid pa ofl] [[o [a b c] p wd snt] cn at_ calls]].
    cbn. rewrite !orb_true_r. repeat split; reflexivity.
  - destruct (negb (is_open (of_file (this_ s))) && can_open (env s) ofile) eqn:E.
    + rewrite (setOutputfile_opens ofile s Hne E) in Hrun. injection Hrun as <-.
      destruct s as [[dg fv bs pid xo yo qe oh aid pa [o [a b c] p wd snt]] w].
      cbn in Hb. subst bs. cbn. rewrite !orb_true_r. repeat split; reflexivity.
    + rewrite (setOutputfile_fails ofile s Hne E) in Hrun. discriminate Hrun.
Qed.

(** X15: The width of 15 that [setOutputfile] sets is used up by the first
    insertion: the first shower line written after it has its tag "S"
    after 14 blanks, the next one starts with the tag. *)
Theorem first_record_is_indented
    (num_put : fmtflags -> nat -> R -> string)
    (ofile : string) (array1 array2 : telescope_array) (s s1 : State) :
  bSTDOUT (this_ s) = false ->
  setOutputfile ofile s = Done tt s1 ->
  is_open (sink s1) = true ->
  exists s2 s3 rest1 rest2,
    writeEvent array1 false s1 = Done tt s2
    /\ writeEvent array2 false s2 = Done tt s3
    /\ render num_put (sent (sink s2))
       = render num_put (sent (sink s1)) +:+ "              S " +:+ rest1
    /\ render num_put (sent (sink s3))
       = render num_put (sent (sink s2)) +:+ "S " +:+ rest2.
Proof.
  intros Hb Hrun Hopen.
  destruct (setOutputfile_format ofile s s1 Hb Hrun) as (Hw & _).
  pose proof (writeEvent_sends array1 false s1 Hopen) as H1. cbv zeta in H1.
  destruct H1 as (s2 & Hrun1 & Hsent1 & _ & _ & Hw2 & Hopen2 & _).
  pose proof (writeEvent_sends array2 false s2 Hopen2) as H2. cbv zeta in H2.
  destruct H2 as (s3 & Hrun2 & Hsent2 & _).
  exists s2, s3. eexists. eexists.
  split; [exact Hrun1|]. split; [exact Hrun2|].
  split.
  - rewrite Hsent1, app_nil_r, render_app, shower_line_text, Hw. reflexivity.
  - rewrite Hsent2, app_nil_r, render_app, shower_line_text, Hw2. reflexivity.
Qed.

End FirstRecord.

(** ** The particle map *)

Lemma particle_table_entries (k v : Z) :
  (<[13%Z:=14%Z]> (<[14%Z:=13%Z]> (<[16%Z:=12%Z]> (<[10%Z:=11%Z]>
   (<[12%Z:=10%Z]> (<[11%Z:=9%Z]> (<[9%Z:=8%Z]> (<[8%Z:=7%Z]>
   (<[7%Z:=6%Z]> (<[6%Z:=5%Z]> (<[5%Z:=4%Z]> (<[3%Z:=3%Z]>
   (<[2%Z:=2%Z]> (<[1%Z:=1%Z]> (∅ : gmap Z Z))))))))))))))) !! k = Some v
  <-> (k, v) ∈ [(1, 1); (2, 2); (3, 3); (5, 4); (6, 5); (7, 6); (8, 7);
                (9, 8); (11, 9); (12, 10); (10, 11); (16, 12); (14, 13);
                (13, 14)]%Z.
Proof.
  rewrite !lookup_insert_Some, lookup_empty.
  rewrite !elem_of_cons, elem_of_nil.
  split.
  - intros H. repeat (destruct H as [[<- <-]|[_ H]]; [tauto|]). discriminate H.
  - intros H.
    repeat (destruct H as [H|H]; [injection H as -> ->; clear; intuition lia|]).
    contradiction.
Qed.

Section ParticleMap.

Context `{Atm : IACT}.

(** X16: [makeParticleMap] discards what the map held and leaves a table of
    14 entries that is one-to-one: every kascade code from 1 to 14 is
    the code of exactly one CORSIKA code, every key is between 1 and 16,
    and 4 and 15 are no keys. The rest of the object and the
    environment are as they were. *)
Theorem makeParticleMap_table (s : State) :
  exists s',
    makeParticleMap s = Done tt s'
    /\ this_ s' = set_particles (particles (this_ s')) (this_ s)
    /\ env s' = env s
    /\ (forall k v, particles (this_ s') !! k = Some v ->
          (1 <= k <= 16)%Z /\ k <> 4%Z /\ k <> 15%Z /\ (1 <= v <= 14)%Z)
    /\ (forall v, (1 <= v <= 14)%Z ->
          exists k, particles (this_ s') !! k = Some v)
    /\ (forall k1 k2 v, particles (this_ s') !! k1 = Some v ->
          particles (this_ s') !! k2 = Some v -> k1 = k2)
    /\ (forall k, (1 <= k <= 16)%Z -> k <> 4%Z -> k <> 15%Z ->
          exists v, particles (this_ s') !! k = Some v).
Proof.
  destruct s as [[dg fv bs pid xo yo qe oh aid pa ofl] w].
  eexists. split; [run_M; reflexivity|].
  cbn [this_ env particles set_particles].
  split; [reflexivity|]. split; [reflexivity|].
  refine (conj _ (conj _ (conj _ _))).
  - intros k v H. apply particle_table_entries in H.
    rewrite !elem_of_cons, elem_of_nil in H.
    repeat (destruct H as [H|H]; [injection H as -> ->; lia|]). contradiction.
  - intros v Hv.
    assert (Hc : (v = 1 \/ v = 2 \/ v = 3 \/ v = 4 \/ v = 5 \/ v = 6 \/ v = 7
                 \/ v = 8 \/ v = 9 \/ v = 10 \/ v = 11 \/ v = 12 \/ v = 13
                 \/ v = 14)%Z) by lia.
    repeat (destruct Hc as [->|Hc]; [eexists; apply particle_table_entries;
                                     rewrite !elem_of_cons; tauto|]).
    subst v. eexists. apply particle_table_entries.
    rewrite !elem_of_cons. tauto.
  - intros k1 k2 v H1 H2.
    apply particle_table_entries in H1, H2.
    rewrite !elem_of_cons, elem_of_nil in H1, H2.
    repeat (destruct H1 as [H1|H1]; [injection H1 as -> ->|]);
      try contradiction;
      repeat (destruct H2 as [H2|H2]; [injection H2; intros; lia|]);
      contradiction.
  - intros k Hk H4 H15.
    assert (Hc : (k = 1 \/ k = 2 \/ k = 3 \/ k = 5 \/ k = 6 \/ k = 7
                 \/ k = 8 \/ k = 9 \/ k = 10 \/ k = 11 \/ k = 12 \/ k = 13
                 \/ k = 14 \/ k = 16)%Z) by lia.
    repeat (destruct Hc as [->|Hc]; [eexists; apply particle_table_entries;
                                     rewrite !elem_of_cons; tauto|]).
    subst k. eexists. apply particle_table_entries.
    rewrite !elem_of_cons. tauto.
Qed.

End ParticleMap.

(** ** What the calls leave alone *)

(** Through the statements of a member function, for a relation between
    the states of two runs; [prim] relates the single statements. *)
Ltac rel_run prim :=
  cbv beta iota zeta;
  lazymatch goal with
  | |- rel _ _ (mbind _ _) (mbind _ _) =>
      eapply rel_bind;
      [ rel_run prim
      | let a1 := fresh "a" in let a2 := fresh "a" in
        intros a1 a2 ?; subst a2;
        lazymatch type of a1 with
        | (_ * _ * _)%type => destruct a1 as [[? ?] ?]
        | _ => idtac
        end;
        cbv beta iota; rel_run prim ]
  | |- rel _ _ (if negb true then _ else _) _ =>
      rewrite !if_negb_true; rel_run prim
  | |- rel _ _ (if ?b then _ else _) (if ?b then _ else _) =>
      destruct b; rel_run prim
  | |- rel _ _ (match ?o with Some _ => _ | None => _ end)
               (match ?o with Some _ => _ | None => _ end) =>
      destruct o; rel_run prim
  | |- _ => prim
  end.

Section Fixed.

Context `{Atm : IACT}.

Variable g0 : VGrisu.
Variable w0 : World.

Ltac fix_side :=
  let g1 := fresh "g" in let w1 := fresh "w" in
  let Hc := fresh "Hc" in let Ha := fresh "Ha" in let Hn := fresh "Hn" in
  intros [g1 w1] ? [<- [Hc [Ha Hn]]]; cbn [this_ env] in *;
  split; [reflexivity|]; split;
  [ destruct g1 as [? ? ? ? ? ? ? ? ? ? ?]; exact Hc
  | destruct w1 as [? ? ? ?]; split; [exact Ha|exact Hn] ].

Lemma fix_on_cout (f : ostream -> ostream) :
  rel (fixed_rel g0 w0) eq (on_cout f) (on_cout f).
Proof. apply rel_upd_env. fix_side. Qed.

Lemma fix_on_of_file (f : ostream -> ostream) :
  rel (fixed_rel g0 w0) eq (on_of_file f) (on_of_file f).
Proof. apply rel_upd_this. fix_side. Qed.

Lemma fix_set_xoff (v : R) :
  rel (fixed_rel g0 w0) eq (upd_this (set_xoff v)) (upd_this (set_xoff v)).
Proof. apply rel_upd_this. fix_side. Qed.

Lemma fix_set_yoff (v : R) :
  rel (fixed_rel g0 w0) eq (upd_this (set_yoff v)) (upd_this (set_yoff v)).
Proof. apply rel_upd_this. fix_side. Qed.

Lemma fix_set_bSTDOUT (v : bool) :
  rel (fixed_rel g0 w0) eq (upd_this (set_bSTDOUT v)) (upd_this (set_bSTDOUT v)).
Proof. apply rel_upd_this. fix_side. Qed.

Lemma fix_get_this : rel (fixed_rel g0 w0) (reads_fixed g0) get_this get_this.
Proof.
  apply rel_get_this. intros s1 s2 [<- [Hc _]]. split; [reflexivity|exact Hc].
Qed.

Lemma fix_get_env : rel (fixed_rel g0 w0) eq get_env get_env.
Proof. apply rel_get_env. intros s1 s2 [<- _]. reflexivity. Qed.

(** [particles[ k ]] on a key the map has reads the map and leaves it as
    it is. *)
Lemma fix_particles_subscript (k v : Z) :
  particles g0 !! k = Some v ->
  rel (fixed_rel g0 w0) eq (particles_subscript k) (particles_subscript k).
Proof.
  intros Hk [g1 w1] ? [<- [Hc [Ha Hn]]]. cbn [this_ env] in *.
  assert (Hp : particles g1 = particles g0) by apply Hc.
  unfold particles_subscript, mbind, M_bind, get_this, map_subscript.
  cbn [this_]. rewrite Hp, Hk. rewrite <- Hp.
  destruct g1 as [dg fv bs pid xo yo qe oh aid pa ofl].
  split; [reflexivity|]. split; [reflexivity|].
  split; [exact Hc|]. split; [exact Ha|exact Hn].
Qed.

Ltac fix_prim :=
  idtac;
  lazymatch goal with
  | |- rel _ _ (on_cout _) _ => apply fix_on_cout
  | |- rel _ _ (on_of_file _) _ => apply fix_on_of_file
  | |- rel _ _ (upd_this (set_xoff _)) _ => apply fix_set_xoff
  | |- rel _ _ (upd_this (set_yoff _)) _ => apply fix_set_yoff
  | |- rel _ _ (upd_this (set_bSTDOUT _)) _ => apply fix_set_bSTDOUT
  | |- rel _ _ (particles_subscript _) _ =>
      eapply fix_particles_subscript; eassumption
  | |- rel _ _ get_env _ => apply fix_get_env
  | |- rel _ _ (transformCoord _ _ _) _ => apply rel_transformCoord
  | |- rel _ _ (exit_ _) _ => apply rel_exit
  | |- rel _ _ (mret _) _ => apply (rel_ret _ eq); reflexivity
  end.

Lemma fix_of_file_open (ofile : string) :
  rel (fixed_rel g0 w0) eq (of_file_open ofile) (of_file_open ofile).
Proof.
  unfold of_file_open. eapply rel_bind; [apply fix_get_this|].
  intros g1 g2 [<- _].
  rel_run fix_prim.
Qed.

Ltac fix_prim2 :=
  idtac;
  lazymatch goal with
  | |- rel _ _ (of_file_open _) _ => apply fix_of_file_open
  | |- _ => fix_prim
  end.

Lemma fix_writeEvent (array : telescope_array) (more : bool) :
  rel (fixed_rel g0 w0) eq (writeEvent array more) (writeEvent array more).
Proof.
  unfold writeEvent. eapply rel_bind; [apply fix_get_this|].
  intros g1 g2 [<- _].
  rel_run fix_prim2.
Qed.

Lemma fix_writePhotons (i_bunch : bunch) (i_tel : Z) :
  rel (fixed_rel g0 w0) eq (writePhotons i_bunch i_tel) (writePhotons i_bunch i_tel).
Proof.
  unfold writePhotons. cbv zeta. eapply rel_bind; [apply rel_transformCoord|].
  intros a1 a2 <-. destruct a1 as [[az x] y]. cbv beta iota.
  eapply rel_bind; [apply fix_get_this|].
  intros g1 g2 [<- _].
  rel_run fix_prim2.
Qed.

Lemma fix_writeRunHeader (buf1 : runheader_buffer) (f : option VCORSIKARunheader) :
  rel (fixed_rel g0 w0) eq (writeRunHeader buf1 f) (writeRunHeader buf1 f).
Proof.
  unfold writeRunHeader. eapply rel_bind; [apply fix_get_this|].
  intros g1 g2 [<- Hc].
  assert (Hp : particles g1 = particles g0) by apply Hc.
  rewrite Hp.
  destruct (particles g0 !! cxx.to_int (buf1 2%nat)) as [v|] eqn:Hk.
  - rel_run fix_prim2.
  - rel_run fix_prim2.
Qed.

Lemma fix_setOutputfile (ofile : string) :
  rel (fixed_rel g0 w0) eq (setOutputfile ofile) (setOutputfile ofile).
Proof. unfold setOutputfile. rel_run fix_prim2. Qed.

Lemma fix_do_calls (cs : list call) :
  rel (fixed_rel g0 w0) eq (do_calls cs) (do_calls cs).
Proof.
  induction cs as [|c cs IH]; cbn [do_calls].
  - apply (rel_ret _ eq). reflexivity.
  - eapply rel_bind; [|intros ? ? _; exact IH].
    destruct c; cbn [do_call].
    + apply fix_setOutputfile.
    + apply fix_writeRunHeader.
    + apply fix_writeEvent.
    + apply fix_writePhotons.
Qed.

End Fixed.

Section Constants.

Context `{Atm : IACT}.

Lemma same_constants_refl (g : VGrisu) : same_constants g g.
Proof. repeat split; reflexivity. Qed.

(** The state a sequence of calls ends in, however it ends. *)
Lemma do_calls_fixed (cs : list call) (s : State) :
  fixed_rel (this_ s) (env s)
    (final_state (do_calls cs s)) (final_state (do_calls cs s)).
Proof.
  pose proof (fix_do_calls (this_ s) (env s) cs s s) as H.
  assert (HP : fixed_rel (this_ s) (env s) s s).
  { split; [reflexivity|]. split; [apply same_constants_refl|].
    split; reflexivity. }
  specialize (H HP). unfold rel_outcome in H.
  destruct (do_calls cs s) as [[] t|c t]; cbn [final_state].
  - destruct H as [_ H]. exact H.
  - destruct H as [_ H]. exact H.
Qed.

(** X17: No sequence of calls changes what the constructor set: [degrad],
    the version, [primID], [qeff], the observation height, the number
    of the atmosphere and the particle map are after the calls what
    they were before, however the calls end; and the atmosphere is not
    set again. Only [bSTDOUT], the offsets and the streams change. *)
Theorem calls_leave_the_constants (cs : list call) (s : State) :
  let s' := final_state (do_calls cs s) in
  same_constants (this_ s') (this_ s)
  /\ atm (env s') = atm (env s)
  /\ atmset_calls (env s') = atmset_calls (env s).
Proof.
  cbv zeta. destruct (do_calls_fixed cs s) as (_ & Hc & Ha & Hn).
  split; [exact Hc|]. split; [exact Ha|exact Hn].
Qed.

End Constants.

(** ** Run headers *)

Lemma suffix_cons {A : Type} (a : A) (l t : list A) :
  (exists r, l = r ++ t) -> exists r, a :: l = r ++ t.
Proof. intros [r ->]. exists (a :: r). reflexivity. Qed.

Lemma suffix_app {A : Type} (l0 l t : list A) :
  (exists r, l = r ++ t) -> exists r, l0 ++ l = r ++ t.
Proof. intros [r ->]. exists (l0 ++ r). apply app_assoc. Qed.

Lemma infix_cons {A : Type} (a : A) (l : list A) (x1 x2 x3 : A) :
  (exists l1 l2, l = l1 ++ x1 :: x2 :: x3 :: l2) ->
  exists l1 l2, a :: l = l1 ++ x1 :: x2 :: x3 :: l2.
Proof. intros (l1 & l2 & ->). exists (a :: l1), l2. reflexivity. Qed.

Ltac find_suffix :=
  first [ exists []; reflexivity
        | apply suffix_cons; find_suffix
        | apply suffix_app; find_suffix ].

Ltac find_infix :=
  first [ exists []; eexists; reflexivity
        | apply infix_cons; find_infix ].

Section Headers.

Context `{Atm : IACT}.

Lemma step_eq2 {A B C : Type} (o : outcome C) (m : M A) (k2 : A -> M B)
    (k : B -> M C) (s : State) (a : A) (s' : State) :
  o = mbind k (mbind k2 m) s -> m s = Done a s' -> o = mbind k (k2 a) s'.
Proof. intros -> H. unfold mbind, M_bind. rewrite H. reflexivity. Qed.

Lemma particles_subscript_known (k v : Z) (s : State) :
  particles (this_ s) !! k = Some v -> particles_subscript k s = Done v s.
Proof.
  destruct s as [[dg fv bs pid xo yo qe oh aid pa ofl] w].
  cbn [this_ particles]. intros H.
  unfold particles_subscript, mbind, M_bind, get_this, map_subscript.
  cbn [this_ particles]. rewrite H. reflexivity.
Qed.

Ltac step_hdr H :=
  lazymatch type of H with
  | _ = mbind _ (transformCoord _ _ _) _ =>
      eapply step_eq in H; [|apply transformCoord_returns]; cbv beta iota in H
  | _ = mbind _ (mbind _ (particles_subscript _)) _ =>
      eapply step_eq2 in H; [|apply particles_subscript_known; eassumption];
      cbv beta iota in H
  | _ => step H
  end.

Ltac steps_hdr H :=
  repeat (lazymatch type of H with
          | context [printHeader _ _] => fail
          | _ => step_hdr H; cbv beta iota zeta in H
          end).

(** The end of a header run: the tokens sent are read off the final
    state, and located in what was sent. *)
Ltac header_sent :=
  eexists; eexists; split; [reflexivity|]; run_M;
  split; [repeat rewrite <- app_assoc; reflexivity|]; cbn [app];
  split; [eexists; reflexivity|];
  split; [find_suffix|].

Ltac header_known Hlook :=
  split;
  [ let v0 := fresh "v" in let Hv := fresh "Hv" in
    intros v0 Hv; rewrite Hlook in Hv; injection Hv as <-; find_infix |];
  split; [find_infix|]; repeat split; reflexivity.

Ltac header_unknown Hlook :=
  split;
  [ let v0 := fresh "v" in let Hv := fresh "Hv" in
    intros v0 Hv; rewrite Hlook in Hv; discriminate Hv |];
  split; [find_infix|]; repeat split; reflexivity.

(** What [writeRunHeader] does on an object whose sink takes output. *)
Lemma writeRunHeader_run
    (buf1 : runheader_buffer) (f : option VCORSIKARunheader) (s : State) :
  is_open (sink s) = true ->
  appends_only f ->
  exists s' l,
    writeRunHeader buf1 f s = Done tt s'
    /\ sent (sink s') = sent (sink s) ++ l
    /\ (exists r,
          l = Put (flags (sink s)) (precision (sink s)) (width (sink s))
                  (text "* HEADF  <-- Start of header flag")
              :: Newline :: r)
    /\ (exists r,
          l = r ++ [Put (flags (sink s')) (precision (sink s')) 0
                        (text "* DATAF  <-- end of header flag");
                    Newline;
                    Put (flags (sink s')) (precision (sink s')) 0 (text "R ");
                    Put (flags (sink s')) (precision (sink s')) 0
                        (floating (qeff (this_ s)));
                    Newline;
                    Put (flags (sink s')) (precision (sink s')) 0 (text "H ");
                    Put (flags (sink s')) (precision (sink s')) 0
                        (floating (observation_height (this_ s)));
                    Newline])
    /\ (forall v,
          particles (this_ s) !! cxx.to_int (buf1 2%nat) = Some v ->
          exists l1 l2,
            l = l1
                ++ Put (flags (sink s)) (precision (sink s)) 0
                       (text (tab3 " Type code for primary particle (kascade ID) "))
                :: Put (flags (sink s)) (precision (sink s)) 0 (integer v)
                :: Newline :: l2)
    /\ (exists l1 l2,
          l = l1
              ++ Put (flags (sink s)) (precision (sink s)) 0
                     (text (tab3 " Primary azimuth angle (kascade coord.): "))
              :: Put (flags (sink s)) (precision (sink s)) 0
                     (floating (redang_value (1.5 * PI - redang_value (buf1 11%nat))
                                * degrad (this_ s)))
              :: Newline :: l2)
    /\ set_of_file (of_file (this_ s)) (this_ s') = this_ s
    /\ is_open (sink s') = true
    /\ width (sink s') = 0%nat.
Proof.
  intros Hopen Happ.
  destruct s as [[dg fv bs pid xo yo qe oh aid pa ofl] [co cn at_ calls]].
  remember (writeRunHeader buf1 f _) as o eqn:Hrun.
  destruct (pa !! cxx.to_int (buf1 2%nat)) as [v|] eqn:Hlook.
  - destruct bs.
    + destruct co as [o' fl p wd snt]. run_M_in Hopen. subst o'.
      destruct f as [pr|]; cbn [appends_only] in Happ.
      * enter_writeRunHeader Hrun.
        rewrite (Hlook : particles (MkVGrisu _ _ _ _ _ _ _ _ _ pa _) !! _ = Some v) in Hrun.
        cbv beta iota in Hrun.
        steps_hdr Hrun. known_printer Happ Hrun. steps_hdr Hrun.
        run_M_in Hrun. subst o.
        header_sent. header_known Hlook.
      * enter_writeRunHeader Hrun.
        rewrite (Hlook : particles (MkVGrisu _ _ _ _ _ _ _ _ _ pa _) !! _ = Some v) in Hrun.
        cbv beta iota in Hrun.
        steps_hdr Hrun. run_M_in Hrun. subst o.
        header_sent. header_known Hlook.
    + destruct ofl as [o' fl p wd snt]. run_M_in Hopen. subst o'.
      destruct f as [pr|]; cbn [appends_only] in Happ.
      * enter_writeRunHeader Hrun.
        rewrite (Hlook : particles (MkVGrisu _ _ _ _ _ _ _ _ _ pa _) !! _ = Some v) in Hrun.
        cbv beta iota in Hrun.
        steps_hdr Hrun. known_printer Happ Hrun. steps_hdr Hrun.
        run_M_in Hrun. subst o.
        header_sent. header_known Hlook.
      * enter_writeRunHeader Hrun.
        rewrite (Hlook : particles (MkVGrisu _ _ _ _ _ _ _ _ _ pa _) !! _ = Some v) in Hrun.
        cbv beta iota in Hrun.
        steps_hdr Hrun. run_M_in Hrun. subst o.
        header_sent. header_known Hlook.
  - destruct bs.
    + destruct co as [o' fl p wd snt]. run_M_in Hopen. subst o'.
      destruct f as [pr|]; cbn [appends_only] in Happ.
      * enter_writeRunHeader Hrun.
        rewrite (Hlook : particles (MkVGrisu _ _ _ _ _ _ _ _ _ pa _) !! _ = None) in Hrun.
        cbv beta iota in Hrun.
        steps_hdr Hrun. known_printer Happ Hrun. steps_hdr Hrun.
        run_M_in Hrun. subst o.
        header_sent. header_unknown Hlook.
      * enter_writeRunHeader Hrun.
        rewrite (Hlook : particles (MkVGrisu _ _ _ _ _ _ _ _ _ pa _) !! _ = None) in Hrun.
        cbv beta iota in Hrun.
        steps_hdr Hrun. run_M_in Hrun. subst o.
        header_sent. header_unknown Hlook.
    + destruct ofl as [o' fl p wd snt]. run_M_in Hopen. subst o'.
      destruct f as [pr|]; cbn [appends_only] in Happ.
      * enter_writeRunHeader Hrun.
        rewrite (Hlook : particles (MkVGrisu _ _ _ _ _ _ _ _ _ pa _) !! _ = None) in Hrun.
        cbv beta iota in Hrun.
        steps_hdr Hrun. known_printer Happ Hrun. steps_hdr Hrun.
        run_M_in Hrun. subst o.
        header_sent. header_unknown Hlook.
      * enter_writeRunHeader Hrun.
        rewrite (Hlook : particles (MkVGrisu _ _ _ _ _ _ _ _ _ pa _) !! _ = None) in Hrun.
        cbv beta iota in Hrun.
        steps_hdr Hrun. run_M_in Hrun. subst o.
        header_sent. header_unknown Hlook.
Qed.

(** X18: In both branches a run header starts with the line of the start
    flag and ends with the line of the end flag followed by an "R" line
    and an "H" line; the two lines carry the object's [qeff] and
    [observation_height], not values of the buffer. Apart from the
    stream written to, the object is as it was. *)
Theorem writeRunHeader_is_delimited
    (buf1 : runheader_buffer) (f : option VCORSIKARunheader) (s : State) :
  is_open (sink s) = true ->
  appends_only f ->
  exists s' l,
    writeRunHeader buf1 f s = Done tt s'
    /\ sent (sink s') = sent (sink s) ++ l
    /\ (exists r,
          l = Put (flags (sink s)) (precision (sink s)) (width (sink s))
                  (text "* HEADF  <-- Start of header flag")
              :: Newline :: r)
    /\ (exists r,
          l = r ++ [Put (flags (sink s')) (precision (sink s')) 0
                        (text "* DATAF  <-- end of header flag");
                    Newline;
                    Put (flags (sink s')) (precision (sink s')) 0 (text "R ");
                    Put (flags (sink s')) (precision (sink s')) 0
                        (floating (qeff (this_ s)));
                    Newline;
                    Put (flags (sink s')) (precision (sink s')) 0 (text "H ");
                    Put (flags (sink s')) (precision (sink s')) 0
                        (floating (observation_height (this_ s)));
                    Newline])
    /\ set_of_file (of_file (this_ s)) (this_ s') = this_ s.
Proof.
  intros Hopen Happ.
  destruct (writeRunHeader_run buf1 f s Hopen Happ)
    as (s' & l & Hrun & Hsent & Hpre & Hsuf & _ & _ & Hobj & _).
  exists s', l. repeat split; assumption.
Qed.

(** X19: For a primary the particle map has, the header carries the line of
    the kascade code with the code the map gives, and the lookup leaves
    the map as it is. *)
Theorem writeRunHeader_known_particle
    (buf1 : runheader_buffer) (f : option VCORSIKARunheader) (s : State)
    (v : Z) :
  particles (this_ s) !! cxx.to_int (buf1 2%nat) = Some v ->
  is_open (sink s) = true ->
  appends_only f ->
  exists s' l l1 l2,
    writeRunHeader buf1 f s = Done tt s'
    /\ sent (sink s') = sent (sink s) ++ l
    /\ l = l1
           ++ Put (flags (sink s)) (precision (sink s)) 0
                  (text (tab3 " Type code for primary particle (kascade ID) "))
           :: Put (flags (sink s)) (precision (sink s)) 0 (integer v)
           :: Newline :: l2
    /\ particles (this_ s') = particles (this_ s).
Proof.
  intros Hlook Hopen Happ.
  destruct (writeRunHeader_run buf1 f s Hopen Happ)
    as (s' & l & Hrun & Hsent & _ & _ & Hk & _ & Hobj & _).
  destruct (Hk v Hlook) as (l1 & l2 & Hl).
  exists s', l, l1, l2.
  split; [exact Hrun|]. split; [exact Hsent|]. split; [exact Hl|].
  rewrite <- Hobj. destruct s' as [[? ? ? ? ? ? ? ? ? ? ?] ?]. reflexivity.
Qed.

(** X20: The azimuth of the primary in kascade coordinates that the header
    carries is the azimuth [transformCoord] leaves for the azimuth of
    the buffer, times [degrad]; the line of the CORSIKA azimuth before it
    carries the azimuth of the buffer itself. *)
Theorem writeRunHeader_kascade_azimuth
    (buf1 : runheader_buffer) (f : option VCORSIKARunheader) (s : State) :
  is_open (sink s) = true ->
  appends_only f ->
  exists s' l l1 l2 az',
    (forall t : State,
       transformCoord (buf1 11%nat) 0 0 t = Done (az', - 0, - 0) t)
    /\ writeRunHeader buf1 f s = Done tt s'
    /\ sent (sink s') = sent (sink s) ++ l
    /\ l = l1
           ++ Put (flags (sink s)) (precision (sink s)) 0
                  (text (tab3 " Primary azimuth angle (kascade coord.): "))
           :: Put (flags (sink s)) (precision (sink s)) 0
                  (floating (az' * degrad (this_ s)))
           :: Newline :: l2.
Proof.
  intros Hopen Happ.
  destruct (writeRunHeader_run buf1 f s Hopen Happ)
    as (s' & l & Hrun & Hsent & _ & _ & _ & (l1 & l2 & Hl) & _).
  exists s', l, l1, l2, (redang_value (1.5 * PI - redang_value (buf1 11%nat))).
  split; [intros t; apply transformCoord_returns|].
  split; [exact Hrun|]. split; [exact Hsent|exact Hl].
Qed.

(** X21: Whatever was called on an object since its construction, and
    whatever observation level the buffer holds, the "R" line of a
    header carries 1 and the "H" line the observation height the
    constructor left: 100, or what [atmset_] made of it. *)
Theorem header_reports_the_constructed_height
    (raw : VGrisu) (iVersion : string) (id : Z) (w : World)
    (cs : list call) (buf1 : runheader_buffer)
    (f : option VCORSIKARunheader) (s1 : State) :
  session raw iVersion id cs w = Done tt s1 ->
  is_open (sink s1) = true ->
  appends_only f ->
  exists s2 l r,
    writeRunHeader buf1 f s1 = Done tt s2
    /\ sent (sink s2) = sent (sink s1) ++ l
    /\ l = r ++ [Put (flags (sink s2)) (precision (sink s2)) 0
                     (text "* DATAF  <-- end of header flag");
                 Newline;
                 Put (flags (sink s2)) (precision (sink s2)) 0 (text "R ");
                 Put (flags (sink s2)) (precision (sink s2)) 0 (floating 1);
                 Newline;
                 Put (flags (sink s2)) (precision (sink s2)) 0 (text "H ");
                 Put (flags (sink s2)) (precision (sink s2)) 0
                     (floating (if (0 <=? id)%Z
                                then snd (fst (atmset_ id 100 (atm w)))
                                else 100));
                 Newline].
Proof.
  intros Hses Hopen Happ.
  unfold session in Hses. rewrite VGrisu_new_run in Hses.
  match type of Hses with do_calls cs ?s0 = _ =>
    pose proof (do_calls_fixed cs s0) as Hfix
  end.
  rewrite Hses in Hfix. cbn [final_state] in Hfix.
  destruct Hfix as (_ & (_ & _ & _ & Hq & Hh & _) & _).
  cbn [this_ qeff observation_height] in Hq, Hh.
  destruct (writeRunHeader_run buf1 f s1 Hopen Happ)
    as (s2 & l & Hrun & Hsent & _ & (r & Hsuf) & _).
  rewrite Hq, Hh in Hsuf.
  exists s2, l, r. repeat split; assumption.
Qed.

End Headers.

(** ** Further examples *)

Section FurtherExamples.

#[local] Existing Instance Examples.null_atmosphere.

Lemma console_object_open : is_open (sink Examples.console_object) = true.
Proof. rewrite console_object_eq. reflexivity. Qed.

Lemma console_session :
session Examples.raw_object "v1" (-1) [CallSetOutputfile "stdout"]
  Examples.fresh_world
= Done tt Examples.console_object.
Proof.
rewrite console_object_eq. unfold session. rewrite VGrisu_new_run.
cbn [do_calls do_call]. unfold mbind, M_bind. rewrite setOutputfile_stdout.
reflexivity.
Qed.

(** The shower of the examples comes from the zenith. *)
Lemma writeEvent_vertical_shower_witness :
is_open (sink Examples.console_object) = true
/\ altitude (shower_sim Examples.shower_1_2) = 90
/\ exists rest s',
     writeEvent Examples.shower_1_2 true Examples.console_object = Done tt s'
     /\ sent (sink s')
        = sent (sink Examples.console_object)
          ++ shower_line (flags (sink Examples.console_object))
               (precision (sink Examples.console_object))
               (width (sink Examples.console_object))
               1 (- 2) (- 1) 0 0 10
          ++ rest.
Proof.
split; [exact console_object_open|]. split; [reflexivity|].
exact (writeEvent_vertical_shower Examples.shower_1_2 true
         Examples.console_object console_object_open eq_refl).
Defined.



Lemma writeEvent_more_info_witness :
is_open (sink Examples.console_object) = true
/\ exists s0 s1,
     writeEvent Examples.shower_1_2 false Examples.console_object = Done tt s0
     /\ writeEvent Examples.shower_1_2 true Examples.console_object = Done tt s1.
Proof.
split; [exact console_object_open|].
destruct (writeEvent_more_info no_digits Examples.shower_1_2
            Examples.console_object console_object_open)
  as (s0 & s1 & Hrun0 & Hrun1 & _).
exists s0, s1. split; assumption.
Defined.

(** The console object and the file object of the examples. *)
Lemma records_same_on_both_destinations_witness :
(bSTDOUT (this_ Examples.console_object) = true
 /\ bSTDOUT (this_ Examples.file_object) = false
 /\ is_open (cout (env Examples.console_object)) = true
 /\ is_open (of_file (this_ Examples.file_object)) = true
 /\ degrad (this_ Examples.console_object) = degrad (this_ Examples.file_object)
 /\ atm (env Examples.console_object) = atm (env Examples.file_object)
 /\ flags (cout (env Examples.console_object))
    = flags (of_file (this_ Examples.file_object))
 /\ precision (cout (env Examples.console_object))
    = precision (of_file (this_ Examples.file_object))
 /\ width (cout (env Examples.console_object))
    = width (of_file (this_ Examples.file_object)))
/\ exists l s1' s2',
     writeEvent Examples.shower_1_2 true Examples.console_object = Done tt s1'
     /\ writeEvent Examples.shower_1_2 true Examples.file_object = Done tt s2'
     /\ sent (cout (env s1')) = sent (cout (env Examples.console_object)) ++ l
     /\ sent (of_file (this_ s2'))
        = sent (of_file (this_ Examples.file_object)) ++ l.
Proof.
assert (H : bSTDOUT (this_ Examples.console_object) = true
 /\ bSTDOUT (this_ Examples.file_object) = false
 /\ is_open (cout (env Examples.console_object)) = true
 /\ is_open (of_file (this_ Examples.file_object)) = true
 /\ degrad (this_ Examples.console_object) = degrad (this_ Examples.file_object)
 /\ atm (env Examples.console_object) = atm (env Examples.file_object)
 /\ flags (cout (env Examples.console_object))
    = flags (of_file (this_ Examples.file_object))
 /\ precision (cout (env Examples.console_object))
    = precision (of_file (this_ Examples.file_object))
 /\ width (cout (env Examples.console_object))
    = width (of_file (this_ Examples.file_object)))
  by (rewrite console_object_eq, file_object_eq; repeat split; reflexivity).
split; [exact H|].
destruct H as (H1 & H2 & H3 & H4 & H5 & H6 & H7 & H8 & H9).
exact (proj1 (records_same_on_both_destinations
                Examples.shower_1_2 true Examples.photon_0 0
                Examples.console_object Examples.file_object
                H1 H2 H3 H4 H5 H6 H7 H8 H9)).
Defined.

(** The console object has no file, and "photons.txt" can be created. *)
Lemma setOutputfile_opens_the_file_witness :
"photons.txt" <> "stdout"
/\ is_open (of_file (this_ Examples.console_object)) = false
/\ can_open (env Examples.console_object) "photons.txt" = true
/\ exists s',
     setOutputfile "photons.txt" Examples.console_object = Done tt s'
     /\ bSTDOUT (this_ s') = true
     /\ is_open (of_file (this_ s')) = true.
Proof.
assert (Hne : "photons.txt" <> "stdout") by discriminate.
assert (Hc : is_open (of_file (this_ Examples.console_object)) = false)
  by (rewrite console_object_eq; reflexivity).
assert (Hcan : can_open (env Examples.console_object) "photons.txt" = true)
  by (rewrite console_object_eq; reflexivity).
split; [exact Hne|]. split; [exact Hc|]. split; [exact Hcan|].
destruct (setOutputfile_opens_the_file "photons.txt" Examples.console_object
            Hne Hc Hcan) as (s' & Hrun & Hfile & _ & Hb & _).
exists s'. split; [exact Hrun|]. split.
- rewrite Hb. rewrite console_object_eq. reflexivity.
- rewrite Hfile. reflexivity.
Defined.

(** Two files, one after the other. *)
Lemma setOutputfile_second_file_exits_witness :
"photons.txt" <> "stdout"
/\ "more.txt" <> "stdout"
/\ is_open (of_file (this_ Examples.console_object)) = false
/\ can_open (env Examples.console_object) "photons.txt" = true
/\ exists s1 s2,
     setOutputfile "photons.txt" Examples.console_object = Done tt s1
     /\ setOutputfile "more.txt" s1 = Exited (-1) s2.
Proof.
assert (Hne1 : "photons.txt" <> "stdout") by discriminate.
assert (Hne2 : "more.txt" <> "stdout") by discriminate.
assert (Hc : is_open (of_file (this_ Examples.console_object)) = false)
  by (rewrite console_object_eq; reflexivity).
assert (Hcan : can_open (env Examples.console_object) "photons.txt" = true)
  by (rewrite console_object_eq; reflexivity).
split; [exact Hne1|]. split; [exact Hne2|]. split; [exact Hc|].
split; [exact Hcan|].
destruct (setOutputfile_second_file_exits "photons.txt" "more.txt"
            Examples.console_object Hne1 Hne2 Hc Hcan)
  as (s1 & s2 & Hrun1 & Hrun2 & _).
exists s1, s2. split; assumption.
Defined.

(** "stdout" selected on an object that has no destination. *)
Lemma first_record_is_indented_witness :
let s := MkState Examples.raw_object Examples.fresh_world in
let s1 := MkState (set_bSTDOUT true Examples.raw_object)
            (set_cout (set_width 15 (set_precision 4
                         (setf (flags_or ios_fixed ios_right)
                               (cout Examples.fresh_world))))
                      Examples.fresh_world) in
bSTDOUT (this_ s) = false
/\ setOutputfile "stdout" s = Done tt s1
/\ is_open (sink s1) = true
/\ exists s2 s3 rest1 rest2,
     writeEvent Examples.shower_1_2 false s1 = Done tt s2
     /\ writeEvent Examples.shower_1_2 false s2 = Done tt s3
     /\ render no_digits (sent (sink s2))
        = render no_digits (sent (sink s1)) +:+ "              S " +:+ rest1
     /\ render no_digits (sent (sink s3))
        = render no_digits (sent (sink s2)) +:+ "S " +:+ rest2.
Proof.
cbv zeta.
assert (Hb : bSTDOUT (this_ (MkState Examples.raw_object Examples.fresh_world))
             = false) by reflexivity.
pose proof (setOutputfile_stdout
              (MkState Examples.raw_object Examples.fresh_world)) as Hrun.
cbn [this_ env] in Hrun.
split; [exact Hb|]. split; [exact Hrun|].
assert (Hopen : is_open (sink (MkState (set_bSTDOUT true Examples.raw_object)
            (set_cout (set_width 15 (set_precision 4
                         (setf (flags_or ios_fixed ios_right)
                               (cout Examples.fresh_world))))
                      Examples.fresh_world))) = true) by reflexivity.
split; [exact Hopen|].
exact (first_record_is_indented no_digits "stdout"
         Examples.shower_1_2 Examples.shower_1_2 _ _ Hb Hrun Hopen).
Defined.

(** The header of the examples, written by the console object. *)
Lemma writeRunHeader_is_delimited_witness :
is_open (sink Examples.console_object) = true
/\ appends_only None
/\ exists s',
     writeRunHeader Examples.zero_header None Examples.console_object
     = Done tt s'
     /\ set_of_file (of_file (this_ Examples.console_object)) (this_ s')
        = this_ Examples.console_object.
Proof.
split; [exact console_object_open|]. split; [exact I|].
destruct (writeRunHeader_is_delimited Examples.zero_header None
            Examples.console_object console_object_open I)
  as (s' & l & Hrun & _ & _ & _ & Hobj).
exists s'. split; assumption.
Defined.

(** A header whose primary is a proton: code 14 of CORSIKA, 13 of
  kascade. *)
Lemma writeRunHeader_known_particle_witness :
particles (this_ Examples.console_object)
  !! cxx.to_int ((fun _ : nat => 14) 2%nat) = Some 13%Z
/\ is_open (sink Examples.console_object) = true
/\ appends_only None
/\ exists s',
     writeRunHeader (fun _ => 14) None Examples.console_object = Done tt s'
     /\ particles (this_ s') = particles (this_ Examples.console_object).
Proof.
assert (Hlook : particles (this_ Examples.console_object)
                  !! cxx.to_int ((fun _ : nat => 14) 2%nat) = Some 13%Z).
{ rewrite console_object_eq. cbv beta. rewrite (to_int_IZR 14). reflexivity. }
split; [exact Hlook|]. split; [exact console_object_open|]. split; [exact I|].
destruct (writeRunHeader_known_particle (fun _ => 14) None
            Examples.console_object 13 Hlook console_object_open I)
  as (s' & l & l1 & l2 & Hrun & _ & _ & Hp).
exists s'. split; assumption.
Defined.

Lemma writeRunHeader_kascade_azimuth_witness :
is_open (sink Examples.console_object) = true
/\ appends_only None
/\ exists s',
     writeRunHeader Examples.zero_header None Examples.console_object
     = Done tt s'.
Proof.
split; [exact console_object_open|]. split; [exact I|].
destruct (writeRunHeader_kascade_azimuth Examples.zero_header None
            Examples.console_object console_object_open I)
  as (s' & l & l1 & l2 & az' & _ & Hrun & _).
exists s'. exact Hrun.
Defined.

(** The session of the console object. *)
Lemma header_reports_the_constructed_height_witness :
session Examples.raw_object "v1" (-1) [CallSetOutputfile "stdout"]
  Examples.fresh_world
= Done tt Examples.console_object
/\ is_open (sink Examples.console_object) = true
/\ appends_only None
/\ exists s2,
     writeRunHeader Examples.zero_header None Examples.console_object
     = Done tt s2.
Proof.
split; [exact console_session|]. split; [exact console_object_open|].
split; [exact I|].
destruct (header_reports_the_constructed_height
            Examples.raw_object "v1" (-1) Examples.fresh_world
            [CallSetOutputfile "stdout"] Examples.zero_header None
            Examples.console_object console_session console_object_open I)
  as (s2 & l & r & Hrun & _).
exists s2. exact Hrun.
Defined.

(** The table built over the console object. *)
Lemma makeParticleMap_table_witness :
exists s' v,
  makeParticleMap Examples.console_object = Done tt s'
  /\ particles (this_ s') !! 14%Z = Some v
  /\ (1 <= v <= 14)%Z.
Proof.
destruct (makeParticleMap_table Examples.console_object)
  as (s' & Hrun & _ & _ & Hin & _ & _ & Hkey).
destruct (Hkey 14%Z) as [v Hv]; [lia|lia|lia|].
exists s', v. split; [exact Hrun|]. split; [exact Hv|].
apply (Hin 14%Z v Hv).
Defined.

End FurtherExamples.

Section Order.

Context `{Atm : IACT}.

(** [writeEvent] leaves [degrad] as it is. *)
Lemma writeEvent_degrad (array : telescope_array) (more : bool) (s s' : State) :
  writeEvent array more s = Done tt s' ->
  degrad (this_ s') = degrad (this_ s).
Proof.
  intros Hrun.
  pose proof (fix_writeEvent (this_ s) (env s) array more s s) as H.
  assert (HP : fixed_rel (this_ s) (env s) s s).
  { split; [reflexivity|]. split; [apply same_constants_refl|].
    split; reflexivity. }
  specialize (H HP). rewrite Hrun in H. cbn [rel_outcome] in H.
  destruct H as (_ & _ & Hc & _). apply Hc.
Qed.

(** X22: The run header has no precision of its own: its floating values
    are written with the precision the stream has. Right after
    [setOutputfile] that is 4; once a shower line was written it is 7.
    Here for the azimuth of the primary. *)
Theorem header_precision_follows_the_records
    (ofile : string) (buf1 : runheader_buffer)
    (f : option VCORSIKARunheader) (array : telescope_array)
    (s s1 : State) :
  bSTDOUT (this_ s) = false ->
  setOutputfile ofile s = Done tt s1 ->
  is_open (sink s1) = true ->
  appends_only f ->
  let fl := flags (sink s1) in
  let label := text (tab3 " Primary azimuth angle (kascade coord.): ") in
  exists az',
    (exists s2 l1 l2,
       writeRunHeader buf1 f s1 = Done tt s2
       /\ sent (sink s2)
          = sent (sink s1)
            ++ l1
            ++ Put fl 4 0 label
            :: Put fl 4 0 (floating (az' * degrad (this_ s1)))
            :: Newline :: l2)
    /\ (exists s2 s3 l1 l2,
          writeEvent array false s1 = Done tt s2
          /\ writeRunHeader buf1 f s2 = Done tt s3
          /\ sent (sink s3)
             = sent (sink s2)
               ++ l1
               ++ Put fl 7 0 label
               :: Put fl 7 0 (floating (az' * degrad (this_ s1)))
               :: Newline :: l2).
Proof.
  intros Hb Hrun Hopen Happ fl label.
  destruct (setOutputfile_format ofile s s1 Hb Hrun) as (_ & Hp & _).
  exists (redang_value (1.5 * PI - redang_value (buf1 11%nat))).
  split.
  - destruct (writeRunHeader_run buf1 f s1 Hopen Happ)
      as (s2 & l & Hrun2 & Hsent & _ & _ & _ & (l1 & l2 & Hl) & _).
    exists s2, l1, l2. split; [exact Hrun2|].
    rewrite Hsent, Hl, Hp. reflexivity.
  - pose proof (writeEvent_sends array false s1 Hopen) as H. cbv zeta in H.
    destruct H as (s2 & Hrun2 & _ & Hfl & Hp2 & _ & Hopen2 & _).
    destruct (writeRunHeader_run buf1 f s2 Hopen2 Happ)
      as (s3 & l & Hrun3 & Hsent & _ & _ & _ & (l1 & l2 & Hl) & _).
    exists s2, s3, l1, l2. split; [exact Hrun2|]. split; [exact Hrun3|].
    rewrite Hsent, Hl, Hp2, Hfl, (writeEvent_degrad _ _ _ _ Hrun2).
    reflexivity.
Qed.

End Order.

Section OrderExamples.

#[local] Existing Instance Examples.null_atmosphere.

(** "stdout" selected on an object that has no destination. *)
Lemma header_precision_follows_the_records_witness :
let s := MkState Examples.raw_object Examples.fresh_world in
let s1 := MkState (set_bSTDOUT true Examples.raw_object)
            (set_cout (set_width 15 (set_precision 4
                         (setf (flags_or ios_fixed ios_right)
                               (cout Examples.fresh_world))))
                      Examples.fresh_world) in
bSTDOUT (this_ s) = false
/\ setOutputfile "stdout" s = Done tt s1
/\ is_open (sink s1) = true
/\ appends_only None
/\ exists s2 s3,
     writeEvent Examples.shower_1_2 false s1 = Done tt s2
     /\ writeRunHeader Examples.zero_header None s2 = Done tt s3.
Proof.
cbv zeta.
assert (Hb : bSTDOUT (this_ (MkState Examples.raw_object Examples.fresh_world))
             = false) by reflexivity.
pose proof (setOutputfile_stdout
              (MkState Examples.raw_object Examples.fresh_world)) as Hrun.
cbn [this_ env] in Hrun.
split; [exact Hb|]. split; [exact Hrun|].
assert (Hopen : is_open (sink (MkState (set_bSTDOUT true Examples.raw_object)
            (set_cout (set_width 15 (set_precision 4
                         (setf (flags_or ios_fixed ios_right)
                               (cout Examples.fresh_world))))
                      Examples.fresh_world))) = true) by reflexivity.
split; [exact Hopen|]. split; [exact I|].
destruct (header_precision_follows_the_records "stdout"
            Examples.zero_header None Examples.shower_1_2 _ _
            Hb Hrun Hopen I)
  as (az' & _ & (s2 & s3 & l1 & l2 & Hrun2 & Hrun3 & _)).
exists s2, s3. split; assumption.
Defined.

End OrderExamples.

(** ** [redang] and [transformCoord] on IEEE-754 values *)

(** X2: With the rounding of every operation, [redang] does not keep below
    2 PI: at the [float] -1.19e-8, a negative angle above -2 PI, the sum
    2 PI + iangle rounds to the [float] nearest to 2 PI, 6.2831855, which
    is what [redang] returns and which is not below [2. * M_PI]. *)
Theorem redang_binary32_returns_two_pi :
  let a := Binary32.float_of_ratio (-119) 10000000000 in
  Binary32.is_negative a = true
  /\ Binary32.above_minus_two_pi a = true
  /\ Binary32.redang a = Some Binary32.two_pi_f
  /\ Binary32.two_pi_f = SpecFloat.S754_finite false 13176795 (-21)
  /\ Binary32.below_two_pi Binary32.two_pi_f = false.
Proof. cbv zeta. repeat split; vm_compute; reflexivity. Qed.

(** X3: With the rounding of every operation, the azimuth [transformCoord]
    leaves is not always below 2 PI: for the [float] 4.712389, the one
    nearest to 1.5 PI, it is the [float] nearest to 2 PI, which is not
    below [2. * M_PI]; the coordinate [-1. * 0] beside it is the negative
    zero. *)
Theorem transformCoord_binary32_leaves_two_pi :
  let az := Binary32.float_of_ratio 4712389 1000000 in
  Binary32.transformCoord az (Binary32.float_of_int 1) (Binary32.float_of_int 0)
  = Some (Binary32.two_pi_f, SpecFloat.S754_zero true, Binary32.float_of_int (-1))
  /\ Binary32.below_two_pi az = true
  /\ Binary32.below_two_pi Binary32.two_pi_f = false.
Proof. cbv zeta. repeat split; vm_compute; reflexivity. Qed.

(** X4: With the rounding of every operation, [transformCoord] applied twice
    gives the coordinates back but not the azimuth: from the azimuth 0 and
    the point (1, 2) the first application leaves the [float] 4.712389
    and (-2, -1), the second the [float] nearest to 2 PI and (1, 2). *)
Theorem transformCoord_binary32_twice :
  let az := Binary32.float_of_ratio 4712389 1000000 in
  Binary32.transformCoord (SpecFloat.S754_zero false)
    (Binary32.float_of_int 1) (Binary32.float_of_int 2)
  = Some (az, Binary32.float_of_int (-2), Binary32.float_of_int (-1))
  /\ Binary32.transformCoord az
       (Binary32.float_of_int (-2)) (Binary32.float_of_int (-1))
     = Some (Binary32.two_pi_f, Binary32.float_of_int 1, Binary32.float_of_int 2)
  /\ SpecFloat.SFeqb Binary32.two_pi_f (SpecFloat.S754_zero false) = false.
Proof. cbv zeta. repeat split; vm_compute; reflexivity. Qed.
